(** * studi-agent: the Canvas assistant's orchestration loop and adapter

    A shallow embedding of [src/agent.py], [src/canvas_client.py],
    [src/openai_client.py] and [src/config.py].  Python values that travel
    through the program as decoded JSON are modelled by the type [json]
    (numbers are integers); Python dictionaries keep their insertion order
    and are modelled by association lists, in which a key is bound once and
    lookup takes the first binding.  Exceptions are modelled by the type
    [exn] and fallible code returns a [result].  The stateful part of the
    agent ([self.context], [self.system_prompt]) and the outside world (the
    Canvas backend, the language model, the clock) are threaded through a
    small state-and-error monad.  The printing and logging of the debug mode
    are left out. *)

From Stdlib Require Import String Ascii List ZArith Lia Bool DecimalString.
From Stdlib Require Import Sorted Permutation.
Import ListNotations.

Local Open Scope string_scope.
Local Open Scope list_scope.
Local Open Scope Z_scope.

Infix "@@" := String.append (at level 60, right associativity).

(** ** Python values *)

#[local] Set Warnings "-register-all".

(** The newline character of the Python string literals. *)
Definition nl : string := String (ascii_of_nat 10) EmptyString.

Inductive json : Type :=
| JNull
| JBool (b : bool)
| JInt (z : Z)
| JStr (s : string)
| JList (l : list json)
| JDict (d : list (string * json)).

(** A Python [dict] with string keys, as decoded from JSON. *)
Definition dict : Type := list (string * json).

Fixpoint dict_lookup (k : string) (d : dict) : option json :=
  match d with
  | [] => None
  | (k', v) :: d' => if String.eqb k k' then Some v else dict_lookup k d'
  end.

(** [d.get(k)]: the value, or [None] when the key is absent. *)
Definition get (d : dict) (k : string) : json :=
  match dict_lookup k d with Some v => v | None => JNull end.

(** [d.get(k, dflt)]. *)
Definition get_default (d : dict) (k : string) (dflt : json) : json :=
  match dict_lookup k d with Some v => v | None => dflt end.

Definition keys (d : dict) : list string := map fst d.

(** Python truthiness of a decoded JSON value. *)
Definition truthy (v : json) : bool :=
  match v with
  | JNull => false
  | JBool b => b
  | JInt z => negb (z =? 0)
  | JStr s => negb (String.eqb s "")
  | JList l => match l with [] => false | _ => true end
  | JDict d => match d with [] => false | _ => true end
  end.

(** Exceptions: the class and the text that [str(e)] gives. *)
Inductive exn_class : Type :=
| TypeError
| ValueError
| AttributeError
| NameError
| JSONDecodeError
| CanvasError.

Record exn : Type := Exn { exn_kind : exn_class; exn_str : string }.

Inductive result (A : Type) : Type :=
| Ok (a : A)
| Err (e : exn).
Arguments Ok {A} a.
Arguments Err {A} e.

(** ** Slices *)

(** [l[-n:]] for a non-negative [n]: the last [n] elements; Python reads
    [-0] as [0], so [l[-0:]] is the whole list. *)
Definition slice_last {A : Type} (n : nat) (l : list A) : list A :=
  match n with
  | O => l
  | S _ => skipn (length l - n) l
  end.

(** [l[:z]] for an integer [z]: a negative bound counts from the end. *)
Definition slice_upto {A : Type} (z : Z) (l : list A) : list A :=
  if 0 <=? z then firstn (Z.to_nat z) l
  else firstn (length l - Z.to_nat (- z)) l.

(** ** Strings *)

(** [str.lower] on ASCII text: the letters A..Z are mapped to a..z and every
    other byte is kept.  Strings are byte sequences here, so the model covers
    names and patterns written in ASCII. *)
Definition lower_ascii (c : ascii) : ascii :=
  let n := nat_of_ascii c in
  if (andb (Nat.leb 65 n) (Nat.leb n 90)) then ascii_of_nat (n + 32) else c.

Fixpoint lower (s : string) : string :=
  match s with
  | EmptyString => EmptyString
  | String c s' => String (lower_ascii c) (lower s')
  end.

(** [pat in s]: substring test. *)
Fixpoint contains (pat s : string) : bool :=
  if String.prefix pat s then true
  else match s with
       | EmptyString => false
       | String _ s' => contains pat s'
       end.

(** [s.replace('Z', '+00:00')]: every occurrence is replaced. *)
Fixpoint replace_Z (s : string) : string :=
  match s with
  | EmptyString => EmptyString
  | String c s' =>
      if Ascii.eqb c "Z"%char then "+00:00" @@ replace_Z s'
      else String c (replace_Z s')
  end.

(** [sep.join(l)]. *)
Fixpoint join (sep : string) (l : list string) : string :=
  match l with
  | [] => ""
  | [x] => x
  | x :: l' => x @@ sep @@ join sep l'
  end.

(** ** config.py *)

Definition MAX_CONTEXT_LENGTH : nat := 10.

Definition DEFAULT_SYSTEM_PROMPT : string :=
  "You are CanvasAssist, an AI assistant designed to help students with Canvas LMS."
  @@ nl @@
  "You can help with assignments, deadlines, grades, and course materials."
  @@ nl @@
  "Be concise, helpful, and student-focused in your responses.".

(** ** datetime *)

(** A [datetime.datetime]: the wall-clock reading in microseconds since the
    start of the calendar, and the UTC offset (in microseconds) when the
    value is timezone-aware; [None] makes it naive.  The calendar's range
    limits (years 1 to 9999) are not modelled. *)
Record datetime : Type := mk_datetime {
  dt_wall : Z;
  dt_utcoffset : option Z
}.

Definition naive (t : Z) : datetime := mk_datetime t None.

Definition cannot_compare : exn :=
  Exn TypeError "can't compare offset-naive and offset-aware datetimes".

(** [a < b]: Python orders two naive values by their wall clock and two
    aware values by their UTC instant, and raises [TypeError] when one is
    naive and the other aware. *)
Definition dt_lt (a b : datetime) : result bool :=
  match dt_utcoffset a, dt_utcoffset b with
  | None, None => Ok (dt_wall a <? dt_wall b)
  | Some oa, Some ob => Ok (dt_wall a - oa <? dt_wall b - ob)
  | _, _ => Err cannot_compare
  end.

(** [a <= b]. *)
Definition dt_le (a b : datetime) : result bool :=
  match dt_utcoffset a, dt_utcoffset b with
  | None, None => Ok (dt_wall a <=? dt_wall b)
  | Some oa, Some ob => Ok (dt_wall a - oa <=? dt_wall b - ob)
  | _, _ => Err cannot_compare
  end.

Definition microseconds_per_day : Z := 86400 * 1000000.

(** [dt + datetime.timedelta(days=days)]: the offset is kept. *)
Definition add_days (d : datetime) (days : Z) : datetime :=
  mk_datetime (dt_wall d + days * microseconds_per_day) (dt_utcoffset d).

(** ** Library functions the program calls

    [json.loads], [json.dumps(., indent=2)], [str()] on a decoded value and
    [datetime.datetime.fromisoformat] are Python's, not the repository's:
    the development is parametric in them.  [json_loads] returns the decoded
    value or the [JSONDecodeError] that Python raises; [fromisoformat] gives
    [None] where Python raises [ValueError]. *)
Class PyLib : Type := {
  json_loads : string -> result json;
  json_dumps : json -> string;
  py_str : json -> string;
  fromisoformat : string -> option datetime;
  (** [re.findall] with the anchor pattern of [get_assignment_details]: the
      pairs of title and address, in order. *)
  findall_links : string -> list (string * string);
  (** [strftime] with the long format of [get_assignment_details]. *)
  strftime_long : datetime -> string
}.

(** ** canvas_client.py: the filters, as functions of the fetched list *)

Section Filters.
Context `{PyLib}.

(** The guard [not assignment.get("due_at") or assignment.get("submitted", False)]. *)
Definition skipped (assignment : dict) : bool :=
  negb (truthy (get assignment "due_at"))
  || truthy (get_default assignment "submitted" (JBool false)).

(** [datetime.datetime.fromisoformat(assignment.get("due_at").replace('Z', '+00:00'))]
    inside [try ... except (ValueError, AttributeError)]: [None] stands for
    the two caught exceptions (a value without [.replace], or text that does
    not parse). *)
Definition parse_due (assignment : dict) : option datetime :=
  match get assignment "due_at" with
  | JStr s => fromisoformat (replace_Z s)
  | _ => None
  end.

(** One turn of the loop of [get_upcoming_assignments]: whether the
    assignment is appended.  The chained comparison
    [now < due_date <= cutoff_date] evaluates [now < due_date] first and
    [due_date <= cutoff_date] only when the first holds; a [TypeError] of
    either is not caught by the [except] clause. *)
Definition upcoming_keeps (now cutoff_date : datetime) (assignment : dict)
  : result bool :=
  if skipped assignment then Ok false
  else match parse_due assignment with
       | None => Ok false
       | Some due_date =>
           match dt_lt now due_date with
           | Err e => Err e
           | Ok false => Ok false
           | Ok true => dt_le due_date cutoff_date
           end
       end.

(** One turn of the loop of [get_late_assignments]: [due_date < now]. *)
Definition late_keeps (now : datetime) (assignment : dict) : result bool :=
  if skipped assignment then Ok false
  else match parse_due assignment with
       | None => Ok false
       | Some due_date => dt_lt due_date now
       end.

(** A [for] loop that appends the kept elements and stops at the first
    exception. *)
Fixpoint filter_loop {A : Type} (keeps : A -> result bool) (l : list A)
  : result (list A) :=
  match l with
  | [] => Ok []
  | a :: l' =>
      match keeps a with
      | Err e => Err e
      | Ok b =>
          match filter_loop keeps l' with
          | Err e => Err e
          | Ok r => Ok (if b then a :: r else r)
          end
      end
  end.

(** The body of [get_upcoming_assignments] after the fetch; [now] is the
    reading of [datetime.datetime.now()], which is naive. *)
Definition upcoming_of (now : Z) (days : Z) (all_assignments : list dict)
  : result (list dict) :=
  let cutoff_date := add_days (naive now) days in
  filter_loop (upcoming_keeps (naive now) cutoff_date) all_assignments.

(** The body of [get_late_assignments] after the fetch. *)
Definition late_of (now : Z) (all_assignments : list dict)
  : result (list dict) :=
  filter_loop (late_keeps (naive now)) all_assignments.

(** The loop of [find_assignment_by_name], on the lowered pattern:
    [assignment.get("name", "").lower()] raises [AttributeError] when the
    name is present and is not a string. *)
Fixpoint find_loop (name_pattern : string) (assignments : list dict)
  : result (option dict) :=
  match assignments with
  | [] => Ok None
  | assignment :: rest =>
      match get_default assignment "name" (JStr "") with
      | JStr assignment_name =>
          if contains name_pattern (lower assignment_name)
          then Ok (Some assignment)
          else find_loop name_pattern rest
      | _ => Err (Exn AttributeError "object has no attribute 'lower'")
      end
  end.

(** [needle in v] for a decoded value: substring of a string, member of a
    list, key of a dictionary; the other values are not iterable. *)
Definition py_in (needle : string) (v : json) : result bool :=
  match v with
  | JStr s => Ok (contains needle s)
  | JList l =>
      Ok (existsb (fun x => match x with
                            | JStr s => String.eqb s needle
                            | _ => false
                            end) l)
  | JDict d => Ok (existsb (fun kv => String.eqb (fst kv) needle) d)
  | _ => Err (Exn TypeError "argument is not iterable")
  end.

(** The file links of [get_assignment_details]: scraped from the description
    when it is truthy and contains an anchor opening. *)
Definition scrape_files (description : json) : result (list json) :=
  if truthy description then
    match py_in "<a" description with
    | Err e => Err e
    | Ok false => Ok []
    | Ok true =>
        match description with
        | JStr text =>
            Ok (map (fun m => JDict [ ("title", JStr (fst m)); ("url", JStr (snd m)) ])
                  (findall_links text))
        | _ => Err (Exn TypeError "expected string or bytes-like object")
        end
    end
  else Ok [].

(** The body of [get_assignment_details] for a fetched assignment that is
    not empty. *)
Definition assignment_details_of (assignment_data : dict) : result dict :=
  let details :=
    [ ("id", get assignment_data "id");
      ("name", get assignment_data "name");
      ("due_at", get assignment_data "due_at");
      ("points_possible", get assignment_data "points_possible");
      ("submission_types", get_default assignment_data "submission_types" (JList []));
      ("has_submitted_submissions",
        get_default assignment_data "has_submitted_submissions" (JBool false));
      ("allowed_attempts", get_default assignment_data "allowed_attempts" (JInt (-1)));
      ("unlock_at", get assignment_data "unlock_at");
      ("lock_at", get assignment_data "lock_at");
      ("description",
        get_default assignment_data "description" (JStr "No description available")) ] in
  match scrape_files (get_default assignment_data "description" (JStr "")) with
  | Err e => Err e
  | Ok files =>
      let submission_types :=
        get_default assignment_data "submission_types" (JList []) in
      let details :=
        details ++ [ ("files", JList files);
                     ("requires_submission", JBool (truthy submission_types)) ] in
      match py_in "online_quiz" submission_types with
      | Err e => Err e
      | Ok is_quiz =>
          let details :=
            if is_quiz then details ++ [ ("is_quiz", JBool true) ] else details in
          Ok (if truthy (get details "due_at") then
                match parse_due details with
                | Some due_date =>
                    details ++ [ ("formatted_due_date", JStr (strftime_long due_date)) ]
                | None => details
                end
              else details)
      end
  end.

(** The entry that [get_assignment_summary] builds for an assignment. *)
Definition summary_entry (course_name course_id : json) (assignment : dict)
  : dict :=
  [ ("course_name", course_name);
    ("course_id", course_id);
    ("assignment_name", get assignment "name");
    ("assignment_id", get assignment "id");
    ("due_date", get assignment "due_at");
    ("points_possible", get assignment "points_possible") ].

(** The sort key [lambda x: x.get("due_date", "")], when it is a string. *)
Definition due_date_key (x : dict) : option string :=
  match get_default x "due_date" (JStr "") with
  | JStr s => Some s
  | _ => None
  end.

(** Stable insertion by key; ties keep the earlier element first. *)
Fixpoint insert_by {A : Type} (key : A -> string) (x : A) (l : list A)
  : list A :=
  match l with
  | [] => [x]
  | y :: l' =>
      if String.leb (key x) (key y) then x :: y :: l'
      else y :: insert_by key x l'
  end.

(** [list.sort(key=...)] on string keys: Python's sort is stable and
    compares strings by code point, which is the byte order of their UTF-8
    encoding. *)
Definition sort_by {A : Type} (key : A -> string) (l : list A) : list A :=
  fold_right (insert_by key) [] l.

Definition key_text (x : dict) : string :=
  match due_date_key x with Some s => s | None => "" end.

(** [l.sort(key=lambda x: x.get("due_date", ""))].  Keys that are not
    strings make Python's comparison raise [TypeError]; the entries built
    by [get_assignment_summary] never have such keys (their due date went
    through [parse_due]). *)
Definition sort_by_due_date (l : list dict) : result (list dict) :=
  if forallb (fun x => match due_date_key x with Some _ => true | None => false end) l
  then Ok (sort_by key_text l)
  else Err (Exn TypeError "'<' not supported between instances").

End Filters.

(** ** Conversation turns and the outside world *)

(** An entry of [self.context] (and of the message list sent to the model):
    [{"role": ..., "content": ...}], with a ["name"] on function turns. *)
Record turn : Type := mk_turn {
  role : string;
  name : option string;
  content : string
}.

(** A tool call of the model's response: [tool_call.function.name] and
    [tool_call.function.arguments], the latter still JSON text. *)
Record tool_call : Type := mk_tool_call {
  tc_name : string;
  tc_arguments : string
}.

(** [response.choices[0].message]: its text and its tool calls ([None] and
    the empty list are both falsy and both modelled by [[]]). *)
Record completion : Type := mk_completion {
  message_content : string;
  message_tool_calls : list tool_call
}.

(** The endpoints that [CanvasClient._make_request] is asked for by the
    operations the agent uses. *)
Inductive endpoint : Type :=
| Courses
| Course (course_id : json)
| Assignments (course_id : json)
| Assignment (course_id assignment_id : json)
| UsersSelf.

(** The collaborators.  [request_list] and [request_dict] stand for
    [_make_request("GET", endpoint)] at the endpoints annotated [List[Dict]]
    and [Dict]: they return the payload or raise.  [clock] is
    [datetime.datetime.now()] (a naive reading, in microseconds).
    [chat_completions_create] is the provider call of [openai_client.py]
    with the message list and, for the tool-calling request, the names of the
    tool catalog. *)
Class Services : Type := {
  World : Type;
  request_list : endpoint -> World -> result (list dict) * World;
  request_dict : endpoint -> World -> result dict * World;
  clock : World -> Z * World;
  chat_completions_create :
    list turn -> option (list string) -> World -> result completion * World
}.

(** What the program asked of the outside world, in order. *)
Inductive event : Type :=
| CanvasGet (ep : endpoint)
| ClockRead
| ChatCompletion (messages : list turn) (tools : option (list string)).

Section Program.
Context `{PyLib} `{Services}.

(** The agent's fields together with the world and the log of requests. *)
Record state : Type := mk_state {
  context : list turn;
  system_prompt : string;
  world : World;
  trace : list event
}.

(** ** The monad: state passing with exceptions; the state written before
    an exception is kept, as a Python object keeps its mutations. *)
Definition M (A : Type) : Type := state -> result A * state.

Definition ret {A : Type} (a : A) : M A := fun s => (Ok a, s).

Definition raise {A : Type} (e : exn) : M A := fun s => (Err e, s).

Definition bind {A B : Type} (m : M A) (k : A -> M B) : M B :=
  fun s =>
    match m s with
    | (Ok a, s') => k a s'
    | (Err e, s') => (Err e, s')
    end.

(** [try: m  except Exception as e: handler(e)]. *)
Definition try_except {A : Type} (m : M A) (handler : exn -> M A) : M A :=
  fun s =>
    match m s with
    | (Ok a, s') => (Ok a, s')
    | (Err e, s') => handler e s'
    end.

Definition lift {A : Type} (r : result A) : M A := fun s => (r, s).

Definition get_context : M (list turn) := fun s => (Ok (context s), s).

Definition set_context (c : list turn) : M unit :=
  fun s => (Ok tt, mk_state c (system_prompt s) (world s) (trace s)).

Definition get_system_prompt : M string := fun s => (Ok (system_prompt s), s).

(** [self.context.append(t)]. *)
Definition context_append (t : turn) : M unit :=
  fun s => (Ok tt, mk_state (context s ++ [t]) (system_prompt s) (world s) (trace s)).

(** A request to a collaborator: the world answers and moves on, and the
    request is logged. *)
Definition ask {A : Type} (ev : event) (f : World -> A * World) : M A :=
  fun s =>
    let (a, w) := f (world s) in
    (Ok a, mk_state (context s) (system_prompt s) w (trace s ++ [ev])).

End Program.

Declare Scope monad_scope.
Delimit Scope monad_scope with monad.
Notation "x <- c1 ;; c2" := (bind c1 (fun x => c2))
  (at level 61, c1 at next level, right associativity) : monad_scope.
Notation "c1 ;;; c2" := (bind c1 (fun _ => c2))
  (at level 61, right associativity) : monad_scope.
Local Open Scope monad_scope.

(** ** canvas_client.py: the operations *)

Section Client.
Context `{PyLib} `{Services}.

Definition make_request_list (ep : endpoint) : M (list dict) :=
  r <- ask (CanvasGet ep) (request_list ep) ;; lift r.

Definition make_request_dict (ep : endpoint) : M dict :=
  r <- ask (CanvasGet ep) (request_dict ep) ;; lift r.

Definition get_courses : M (list dict) := make_request_list Courses.

Definition get_course (course_id : json) : M dict :=
  make_request_dict (Course course_id).

Definition get_assignments (course_id : json) : M (list dict) :=
  make_request_list (Assignments course_id).

Definition get_assignment (course_id assignment_id : json) : M dict :=
  make_request_dict (Assignment course_id assignment_id).

Definition get_user_profile : M dict := make_request_dict UsersSelf.

Definition datetime_now : M Z := ask ClockRead clock.

(** A decoded JSON value used where Python needs an [int] (a slice bound, the
    [days] of a [timedelta]); [bool] is a subclass of [int]. *)
Definition as_int (v : json) : option Z :=
  match v with
  | JInt z => Some z
  | JBool b => Some (if b then 1 else 0)
  | _ => None
  end.

Definition get_assignment_details (course_id assignment_id : json) : M dict :=
  assignment_data <- get_assignment course_id assignment_id ;;
  match assignment_data with
  | [] => ret [("error", JStr "Assignment not found")]
  | _ => lift (assignment_details_of assignment_data)
  end.

(** [name_pattern] is what the caller passes for the parameter annotated
    [str]; [name_pattern.lower()] runs after the fetch. *)
Definition find_assignment_by_name (course_id name_pattern : json)
  : M (option dict) :=
  assignments <- get_assignments course_id ;;
  match name_pattern with
  | JStr p => lift (find_loop (lower p) assignments)
  | _ => raise (Exn AttributeError "object has no attribute 'lower'")
  end.

Definition get_upcoming_assignments (course_id days : json) : M (list dict) :=
  all_assignments <- get_assignments course_id ;;
  now <- datetime_now ;;
  match as_int days with
  | Some d => lift (upcoming_of now d all_assignments)
  | None => raise (Exn TypeError "unsupported type for timedelta days component")
  end.

Definition get_late_assignments (course_id : json) : M (list dict) :=
  all_assignments <- get_assignments course_id ;;
  now <- datetime_now ;;
  lift (late_of now all_assignments).

(** The [for course in courses] loop of [get_assignment_summary], carrying
    the two lists of the summary. *)
Fixpoint summary_loop (courses : list dict) (late_acc upcoming_acc : list dict)
  : M (list dict * list dict) :=
  match courses with
  | [] => ret (late_acc, upcoming_acc)
  | course :: rest =>
      let course_id := get course "id" in
      let course_name := get course "name" in
      late <- get_late_assignments course_id ;;
      let late_acc := late_acc ++ map (summary_entry course_name course_id) late in
      upcoming <- get_upcoming_assignments course_id (JInt 7) ;;
      let upcoming_acc :=
        upcoming_acc ++ map (summary_entry course_name course_id) upcoming in
      summary_loop rest late_acc upcoming_acc
  end.

Definition get_assignment_summary (max_courses : json) : M dict :=
  courses <- get_courses ;;
  match courses with
  | [] => ret [("summary", JStr "No courses found")]
  | _ =>
      match as_int max_courses with
      | None => raise (Exn TypeError "bad operand for the course limit")
      | Some n =>
          let courses := slice_upto n courses in
          lists <- summary_loop courses [] [] ;;
          late_sorted <- lift (sort_by_due_date (fst lists)) ;;
          upcoming_sorted <- lift (sort_by_due_date (snd lists)) ;;
          (* [min(len(courses), max_courses)] is [max_courses] itself when
             it is the smaller. *)
          ret [ ("courses", JInt (Z.of_nat (length courses)));
                ("courses_checked",
                  if n <? Z.of_nat (length courses) then max_courses
                  else JInt (Z.of_nat (length courses)));
                ("late_assignments", JList (map JDict late_sorted));
                ("upcoming_assignments", JList (map JDict upcoming_sorted)) ]
      end
  end.

End Client.

(** ** openai_client.py *)

Section Gateway.
Context `{PyLib} `{Services}.

Definition system_turn (system_prompt : string) : turn :=
  mk_turn "system" None system_prompt.

(** [generate_response]: any failure of the provider call becomes text. *)
Definition generate_response (system_prompt : string) (messages : list turn)
  : M string :=
  let full_messages := system_turn system_prompt :: messages in
  r <- ask (ChatCompletion full_messages None)
           (chat_completions_create full_messages None) ;;
  match r with
  | Ok response => ret (message_content response)
  | Err e => ret ("I'm sorry, I encountered an error: " @@ exn_str e)
  end.

(** [generate_with_tools]: the text and the tool calls of the response. *)
Definition generate_with_tools (system_prompt : string) (messages : list turn)
  (tools : list string) : M completion :=
  let full_messages := system_turn system_prompt :: messages in
  r <- ask (ChatCompletion full_messages (Some tools))
           (chat_completions_create full_messages (Some tools)) ;;
  match r with
  | Ok response => ret response
  | Err e =>
      ret (mk_completion ("I'm sorry, I encountered an error: " @@ exn_str e) [])
  end.

End Gateway.

(** ** agent.py *)

Section Agent.
Context `{PyLib} `{Services}.

(** The names of [self.tools], in order. *)
Definition tools : list string :=
  [ "get_courses"; "get_course_details"; "get_assignments";
    "get_assignment_summary"; "get_upcoming_assignments";
    "get_late_assignments"; "get_assignment_details"; "find_assignment";
    "get_user_profile" ].

(** [function_args.get(k)] on the decoded arguments, which are whatever JSON
    value the text held: only an object has [.get]. *)
Definition args_get (function_args : json) (k : string) : M json :=
  match function_args with
  | JDict d => ret (get d k)
  | _ => raise (Exn AttributeError "object has no attribute 'get'")
  end.

Definition args_get_default (function_args : json) (k : string) (dflt : json)
  : M json :=
  match function_args with
  | JDict d => ret (get_default d k dflt)
  | _ => raise (Exn AttributeError "object has no attribute 'get'")
  end.

Definition simplify_course (course : dict) : dict :=
  [ ("id", get course "id"); ("name", get course "name") ].

(** The shape given to an assignment of the [get_assignments] tool. *)
Definition simplify_assignment (assignment : dict) : dict :=
  [ ("id", get assignment "id");
    ("name", get assignment "name");
    ("due_at", get assignment "due_at");
    ("points_possible", get assignment "points_possible");
    ("submitted", get_default assignment "submitted" (JBool false)) ].

(** The shape given by the upcoming and late tools. *)
Definition simplify_dated (assignment : dict) : dict :=
  [ ("id", get assignment "id");
    ("name", get assignment "name");
    ("due_at", get assignment "due_at");
    ("points_possible", get assignment "points_possible") ].

Definition dumps_dicts (l : list dict) : string :=
  json_dumps (JList (map JDict l)).

(** The body of the [try] of [_handle_tool_calls], for one tool call: the
    [if]/[elif] chain on the name.  It receives [results] and
    [large_response] and returns them as the branch leaves them; a name that
    no branch tests leaves them as they were.  No branch writes to either
    before the last statement that can raise, so an exception leaves them
    untouched. *)
Definition dispatch (function_name : string) (function_args : json)
  (results : list string) (large_response : bool) : M (list string * bool) :=
  if String.eqb function_name "get_courses" then
    result <- get_courses ;;
    ret (results ++ ["Courses: " @@ dumps_dicts (map simplify_course result)],
         large_response)
  else if String.eqb function_name "get_course_details" then
    course_id <- args_get function_args "course_id" ;;
    result <- get_course course_id ;;
    ret (results ++ ["Course Details: " @@ json_dumps (JDict result)],
         large_response)
  else if String.eqb function_name "get_assignments" then
    course_id <- args_get function_args "course_id" ;;
    result <- get_assignments course_id ;;
    let large_response :=
      if Nat.ltb 10 (length result) then true else large_response in
    ret (results ++
           ["Assignments: " @@ dumps_dicts (map simplify_assignment (firstn 15 result))],
         large_response)
  else if String.eqb function_name "get_assignment_summary" then
    max_courses <- args_get_default function_args "max_courses" (JInt 5) ;;
    result <- get_assignment_summary max_courses ;;
    ret (results ++ ["Assignment Summary: " @@ json_dumps (JDict result)],
         large_response)
  else if String.eqb function_name "get_upcoming_assignments" then
    course_id <- args_get function_args "course_id" ;;
    days <- args_get_default function_args "days" (JInt 14) ;;
    result <- get_upcoming_assignments course_id days ;;
    ret (results ++
           ["Upcoming Assignments: " @@ dumps_dicts (map simplify_dated result)],
         large_response)
  else if String.eqb function_name "get_late_assignments" then
    course_id <- args_get function_args "course_id" ;;
    result <- get_late_assignments course_id ;;
    ret (results ++
           ["Late Assignments: " @@ dumps_dicts (map simplify_dated result)],
         large_response)
  else if String.eqb function_name "get_assignment_details" then
    course_id <- args_get function_args "course_id" ;;
    assignment_id <- args_get function_args "assignment_id" ;;
    result <- get_assignment_details course_id assignment_id ;;
    ret (results ++ ["Assignment Details: " @@ json_dumps (JDict result)],
         large_response)
  else if String.eqb function_name "find_assignment" then
    course_id <- args_get function_args "course_id" ;;
    name_pattern <- args_get function_args "name_pattern" ;;
    result <- find_assignment_by_name course_id name_pattern ;;
    match result with
    | Some ((_ :: _) as found) =>
        ret (results ++ ["Found Assignment: " @@ json_dumps (JDict found)],
             large_response)
    | _ =>
        ret (results ++
               ["No assignment found matching '" @@ py_str name_pattern
                @@ "' in course " @@ py_str course_id],
             large_response)
    end
  else if String.eqb function_name "get_user_profile" then
    result <- get_user_profile ;;
    ret (results ++ ["User Profile: " @@ json_dumps (JDict result)],
         large_response)
  else ret (results, large_response).

(** The local variables of [_handle_tool_calls] that outlive a turn of its
    loop; [function_name] is unbound before the first turn. *)
Record locals : Type := mk_locals {
  function_name : option string;
  results : list string;
  errors : list string;
  large_response : bool
}.

Definition initial_locals : locals := mk_locals None [] [] false.

(** One turn of [for tool_call in tool_calls]: the name is bound, the
    arguments are decoded (outside the [try]), and the [try] runs. *)
Definition handle_tool_call (l : locals) (tc : tool_call) : M locals :=
  let fn := tc_name tc in
  match json_loads (tc_arguments tc) with
  | Err e => raise e
  | Ok function_args =>
      try_except
        (r <- dispatch fn function_args (results l) (large_response l) ;;
         ret (mk_locals (Some fn) (fst r) (errors l) (snd r)))
        (fun e =>
           let error_msg := "Error executing " @@ fn @@ ": " @@ exn_str e in
           ret (mk_locals (Some fn) (results l) (errors l ++ [error_msg])
                  (large_response l)))
  end.

Fixpoint tool_loop (l : locals) (tool_calls : list tool_call) : M locals :=
  match tool_calls with
  | [] => ret l
  | tc :: rest => l' <- handle_tool_call l tc ;; tool_loop l' rest
  end.

(** [for result in results: self.context.append({"role": "function",
    "name": function_name, "content": result})]: [function_name] is read
    after the loop over the tool calls has ended. *)
Fixpoint append_results (function_name : option string) (results : list string)
  : M unit :=
  match results with
  | [] => ret tt
  | result :: rest =>
      match function_name with
      | None => raise (Exn NameError "name 'function_name' is not defined")
      | Some fn =>
          context_append (mk_turn "function" (Some fn) result) ;;;
          append_results function_name rest
      end
  end.

Definition concise_suffix : string :=
  nl @@ "Give very concise responses. Focus on only the most important information. Summarize details rather than listing everything.".

Definition _handle_tool_calls (tool_calls : list tool_call) : M string :=
  l <- tool_loop initial_locals tool_calls ;;
  append_results (function_name l) (results l) ;;;
  (match errors l with
   | [] => ret tt
   | _ =>
       let error_content := "Errors encountered:" @@ nl @@ join nl (errors l) in
       context_append (mk_turn "function" (Some "error_report") error_content)
   end) ;;;
  stored <- get_system_prompt ;;
  let target_system_prompt :=
    if large_response l then stored @@ concise_suffix else stored in
  messages <- get_context ;;
  generate_response target_system_prompt messages.

(** The two statements that open [process_message]: the append of the user
    turn and the cut to the last [MAX_CONTEXT_LENGTH] turns. *)
Definition add_user_message (message : string) : M unit :=
  context_append (mk_turn "user" None message) ;;;
  c <- get_context ;;
  if Nat.ltb MAX_CONTEXT_LENGTH (length c)
  then set_context (slice_last MAX_CONTEXT_LENGTH c)
  else ret tt.

Definition process_message (message : string) : M string :=
  try_except
    (add_user_message message ;;;
     stored <- get_system_prompt ;;
     messages <- get_context ;;
     response <- generate_with_tools stored messages tools ;;
     result <-
       (match message_tool_calls response with
        | [] => ret (message_content response)
        | tool_calls =>
            try_except (_handle_tool_calls tool_calls)
              (fun e =>
                 ret ("I tried to retrieve information from Canvas, but encountered an error: "
                      @@ exn_str e @@ nl @@ nl @@
                      "Please check your Canvas API configuration and ensure the server is running."))
        end) ;;
     context_append (mk_turn "assistant" None result) ;;;
     ret result)
    (fun e =>
       ret ("I'm sorry, I encountered an error while processing your message: "
            @@ exn_str e)).

(** [reset_context]. *)
Definition reset_context : M unit := set_context [].

End Agent.

(** ** Words of the specification *)





Section FilterWords.
Context `{PyLib}.



End FilterWords.

(** The five fields of the broad assignment list. *)
Definition assignment_fields : list string :=
  [ "id"; "name"; "due_at"; "points_possible"; "submitted" ].

(** Ascending by due-date string. *)
Definition sorted_by_due_date (l : list dict) : Prop :=
  Sorted (fun x y => String.leb (key_text x) (key_text y) = true) l.

(** Every entry has a sort key that is text. *)
Definition text_keys (l : list dict) : Prop :=
  Forall (fun x => due_date_key x <> None) l.

(** The function turns that a cycle appends for its results, all under the
    value that [function_name] has after the loop. *)
Definition result_turns (function_name : option string) (results : list string)
  : list turn :=
  match function_name with
  | Some fn => map (mk_turn "function" (Some fn)) results
  | None => []
  end.

(** The error-report turn, when there are errors. *)
Definition error_turns (errors : list string) : list turn :=
  match errors with
  | [] => []
  | _ => [mk_turn "function" (Some "error_report")
            ("Errors encountered:" @@ nl @@ join nl errors)]
  end.

Section CycleWords.
Context `{PyLib} `{Services}.

(** An invocation of the broad list-assignments tool whose fetch brings
    more than ten items, seen from the state in which it starts. *)
Definition brings_large_list (tc : tool_call) (s : state) : bool :=
  String.eqb (tc_name tc) "get_assignments"
  && match json_loads (tc_arguments tc) with
     | Ok (JDict d) =>
         match fst (request_list (Assignments (get d "course_id")) (world s)) with
         | Ok result => Nat.ltb 10 (length result)
         | Err _ => false
         end
     | _ => false
     end.

(** Some invocation of the cycle is one. *)
Fixpoint large_list_seen (tool_calls : list tool_call) (s : state) : bool :=
  match tool_calls with
  | [] => false
  | tc :: rest =>
      brings_large_list tc s
      || large_list_seen rest (snd (handle_tool_call initial_locals tc s))
  end.

(** A computation that writes neither [self.context] nor
    [self.system_prompt]. *)
Definition frame {A : Type} (m : M A) : Prop :=
  forall s, context (snd (m s)) = context s
            /\ system_prompt (snd (m s)) = system_prompt s.

(** The last request of a log. *)
Definition last_event (s : state) : option event := last (map Some (trace s)) None.

End CycleWords.

(** ** A concrete library and a concrete world, for worked examples *)

Module Sample.

Definition digit_of (c : ascii) : option Z :=
  let n := nat_of_ascii c in
  if andb (Nat.leb 48 n) (Nat.leb n 57) then Some (Z.of_nat (n - 48)) else None.

Fixpoint read_digits (n : nat) (acc : Z) (s : string) : option (Z * string) :=
  match n with
  | O => Some (acc, s)
  | S n' =>
      match s with
      | String c s' =>
          match digit_of c with
          | Some d => read_digits n' (10 * acc + d) s'
          | None => None
          end
      | EmptyString => None
      end
  end.

Definition expect (c : ascii) (k : string -> option datetime) (s : string)
  : option datetime :=
  match s with
  | String c' s' => if Ascii.eqb c c' then k s' else None
  | EmptyString => None
  end.

Definition number (n : nat) (k : Z -> string -> option datetime) (s : string)
  : option datetime :=
  match read_digits n 0 s with
  | Some (v, s') => k v s'
  | None => None
  end.

Definition is_leap (y : Z) : bool :=
  ((y mod 4 =? 0) && negb (y mod 100 =? 0)) || (y mod 400 =? 0).

Definition days_in_month (y m : Z) : Z :=
  if m =? 2 then (if is_leap y then 29 else 28)
  else if (m =? 4) || (m =? 6) || (m =? 9) || (m =? 11) then 30
  else 31.

(** Days from 1970-01-01 to the given date of the proleptic Gregorian
    calendar. *)
Definition days_from_civil (y m d : Z) : Z :=
  let y' := if m <=? 2 then y - 1 else y in
  let era := y' / 400 in
  let yoe := y' - era * 400 in
  let doy := (153 * (if 2 <? m then m - 3 else m + 9) + 2) / 5 + d - 1 in
  let doe := yoe * 365 + yoe / 4 - yoe / 100 + doy in
  era * 146097 + doe - 719468.

Definition in_range (lo v hi : Z) : bool := (lo <=? v) && (v <=? hi).

(** The UTC offset that may follow the time: nothing (a naive value), or a
    sign and [HH:MM]. *)
Definition read_offset (wall : Z) (s : string) : option datetime :=
  match s with
  | EmptyString => Some (mk_datetime wall None)
  | String sign s' =>
      if Ascii.eqb sign "+"%char || Ascii.eqb sign "-"%char then
        number 2 (fun hh => expect ":"%char (number 2 (fun mm rest =>
          match rest with
          | EmptyString =>
              if in_range 0 hh 23 && in_range 0 mm 59 then
                let off := (hh * 60 + mm) * 60 * 1000000 in
                Some (mk_datetime wall
                        (Some (if Ascii.eqb sign "-"%char then - off else off)))
              else None
          | _ => None
          end))) s'
      else None
  end.

(** [fromisoformat] on the texts [YYYY-MM-DDTHH:MM:SS] and
    [YYYY-MM-DDTHH:MM:SS+HH:MM], which every Python version that has the
    function accepts; other texts are refused here. *)
Definition fromisoformat (s : string) : option datetime :=
  number 4 (fun y => expect "-"%char (number 2 (fun m => expect "-"%char
  (number 2 (fun d => expect "T"%char (number 2 (fun hh => expect ":"%char
  (number 2 (fun mi => expect ":"%char (number 2 (fun se rest =>
    if in_range 1 y 9999 && in_range 1 m 12 && in_range 1 d (days_in_month y m)
       && in_range 0 hh 23 && in_range 0 mi 59 && in_range 0 se 59
    then
      read_offset
        ((((days_from_civil y m d * 24 + hh) * 60 + mi) * 60 + se) * 1000000)
        rest
    else None))))))))))) s.

Definition decimal (z : Z) : string := NilZero.string_of_int (Z.to_int z).

Definition quote : string := String (ascii_of_nat 34) EmptyString.

(** A one-line rendering of a decoded value (strings are not escaped). *)
Fixpoint json_dumps (v : json) : string :=
  match v with
  | JNull => "null"
  | JBool b => if b then "true" else "false"
  | JInt z => decimal z
  | JStr s => quote @@ s @@ quote
  | JList l => "[" @@ join ", " (map json_dumps l) @@ "]"
  | JDict d =>
      "{" @@ join ", " (map (fun kv => quote @@ fst kv @@ quote @@ ": "
                                        @@ json_dumps (snd kv)) d) @@ "}"
  end.

Definition py_str (v : json) : string :=
  match v with
  | JNull => "None"
  | JBool b => if b then "True" else "False"
  | JStr s => s
  | _ => json_dumps v
  end.

(** What [json.loads] raises on the text of a lone opening brace. *)
Definition unterminated_object : exn :=
  Exn JSONDecodeError
    "Expecting property name enclosed in double quotes: line 1 column 2 (char 1)".

(** A decoder for the two argument texts of the examples: the empty object
    is decoded and the lone opening brace is refused, as [json.loads] does;
    no other text is given to it. *)
Definition json_loads (s : string) : result json :=
  if String.eqb s "{}" then Ok (JDict []) else Err unterminated_object.

(** The worked examples scrape no description and format no date. *)
Definition lib : PyLib :=
  Build_PyLib json_loads json_dumps py_str fromisoformat
    (fun _ => []) (fun _ => "").

(** A backend that answers from fixed data, a clock that stands still and
    a model that always gives the same completion. *)
Definition services (courses : result (list dict))
  (assignments : json -> result (list dict)) (profile : result dict)
  (now : Z) (reply : completion) : Services :=
  {| World := unit;
     request_list := fun ep w =>
       (match ep with
        | Courses => courses
        | Assignments course_id => assignments course_id
        | _ => Err (Exn CanvasError "Canvas API error (404): Not Found")
        end, w);
     request_dict := fun ep w =>
       (match ep with
        | UsersSelf => profile
        | _ => Err (Exn CanvasError "Canvas API error (404): Not Found")
        end, w);
     clock := fun w => (now, w);
     chat_completions_create := fun _ _ w => (Ok reply, w) |}.

Definition assignment (id : Z) (nm due_at : string) : dict :=
  [ ("id", JInt id); ("name", JStr nm); ("due_at", JStr due_at);
    ("points_possible", JInt 10) ].

Definition course (id : Z) (nm : string) : dict :=
  [ ("id", JInt id); ("name", JStr nm) ].

(** Noon of 2024-02-01, read from a clock without time zone. *)
Definition noon_2024_02_01 : Z :=
  ((days_from_civil 2024 2 1 * 24 + 12) * 3600) * 1000000.

(** Noon of 2025-02-01. *)
Definition noon_2025_02_01 : Z :=
  ((days_from_civil 2025 2 1 * 24 + 12) * 3600) * 1000000.

Definition down : exn := Exn CanvasError "Canvas API error (500): Internal Server Error".

Definition text_reply (s : string) : completion := mk_completion s [].

(** An agent as [CanvasAgent.__init__] leaves it, after the given turns. *)
Definition fresh `{Services} (w : World) (history : list turn) : state :=
  mk_state history DEFAULT_SYSTEM_PROMPT w [].

End Sample.

(** ** canvas_client.py: the request and its envelope *)

Section Envelope.
Context `{PyLib}.

(** [str(n)] for an integer. *)
Definition str_int (z : Z) : string := NilZero.string_of_int (Z.to_int z).

(** The statements that follow [json.loads(response_text)] in each branch of
    [_make_request]: the payload of a successful envelope, or the exception
    that reports the error of the envelope.  Only an object has [.get]. *)
Definition envelope (response_json : json) : result json :=
  match response_json with
  | JDict d =>
      if truthy (get_default d "success" (JBool false))
      then Ok (get_default d "data" (JDict []))
      else Err (Exn CanvasError
                  ("Canvas API error: "
                   @@ py_str (get_default d "error" (JStr "Unknown error"))))
  | _ => Err (Exn AttributeError "object has no attribute 'get'")
  end.

(** The exception for a status other than 200. *)
Definition status_error (status : Z) (response_text : string) : exn :=
  Exn CanvasError
    ("Canvas API error (" @@ str_int status @@ "): " @@ response_text).

(** The branches of [GET], [POST] and [PUT] once the call of the session
    has given the status and the text of the response. *)
Definition read_response (status : Z) (response_text : string) : result json :=
  if status =? 200 then
    match json_loads response_text with
    | Ok response_json => envelope response_json
    | Err e => Err e
    end
  else Err (status_error status response_text).

(** The branch of [DELETE]: a body that does not decode counts as success. *)
Definition read_delete_response (status : Z) (response_text : string)
  : result json :=
  if status =? 200 then
    match json_loads response_text with
    | Ok response_json => envelope response_json
    | Err _ => Ok (JDict [ ("status", JStr "success") ])
    end
  else Err (status_error status response_text).

(** [_make_request], as a function of what the call of the HTTP session
    yields: the status and the text of the response, or the
    [aiohttp.ClientError] it raises.  A method that no branch tests makes no
    call and the function returns [None]. *)
Definition _make_request (method : string) (outcome : result (Z * string))
  : result json :=
  let network (e : exn) : exn :=
    Exn CanvasError
      ("Network error when connecting to Canvas API: " @@ exn_str e) in
  if String.eqb method "GET" then
    match outcome with
    | Ok (status, response_text) => read_response status response_text
    | Err e => Err (network e)
    end
  else if String.eqb method "POST" then
    match outcome with
    | Ok (status, response_text) => read_response status response_text
    | Err e => Err (network e)
    end
  else if String.eqb method "PUT" then
    match outcome with
    | Ok (status, response_text) => read_response status response_text
    | Err e => Err (network e)
    end
  else if String.eqb method "DELETE" then
    match outcome with
    | Ok (status, response_text) => read_delete_response status response_text
    | Err e => Err (network e)
    end
  else Ok JNull.

End Envelope.

(** ** main.py *)

(** The lines of [print_welcome]. *)
Definition welcome : list string :=
  [ nl @@ "======================================================";
    "  Welcome to Canvas Assistant - Terminal Interface";
    "======================================================";
    "Type 'exit' or 'quit' to end the conversation";
    "Type 'reset' to clear the conversation history";
    "Type 'help' to see these instructions again";
    "======================================================" @@ nl ].

(** [not value] for a setting read from the environment: unset or empty. *)
Definition unset (value : option string) : bool :=
  match value with
  | None => true
  | Some v => String.eqb v ""
  end.

(** The list that [validate_environment] collects. *)
Definition missing_vars (OPENAI_API_KEY CANVAS_ACCESS_TOKEN : option string)
  : list string :=
  (if unset OPENAI_API_KEY then [ "OPENAI_API_KEY" ] else [])
  ++ (if unset CANVAS_ACCESS_TOKEN then [ "CANVAS_ACCESS_TOKEN" ] else []).

(** What [validate_environment] prints before [sys.exit(1)]. *)
Definition missing_report (missing : list string) : list string :=
  [ "Error: The following required environment variables are not set:" ]
  ++ map (fun var => "  - " @@ var) missing
  ++ [ nl @@ "Please set these variables in a .env file or in your environment.";
       "Example .env file format:";
       "OPENAI_API_KEY=your_openai_api_key";
       "CANVAS_ACCESS_TOKEN=your_canvas_token" ].

Section Console.
Context `{PyLib} `{Services}.

(** The agent that [CanvasAgent.__init__] builds. *)
Definition new_agent (w : World) : state :=
  mk_state [] DEFAULT_SYSTEM_PROMPT w [].

(** One turn of the [while True] of [main_loop] on a line read by
    [input]: whether the loop goes on, and what is printed.  The body is
    inside [try ... except Exception]. *)
Definition console_turn (user_input : string) : M (bool * list string) :=
  try_except
    (let command := lower user_input in
     if String.eqb command "exit" || String.eqb command "quit" then
       ret (false, [ "Thank you for using Canvas Assistant. Goodbye!" ])
     else if String.eqb command "reset" then
       reset_context ;;;
       ret (true, [ "Conversation history has been reset." ])
     else if String.eqb command "help" then
       ret (true, welcome)
     else
       response <- process_message user_input ;;
       ret (true, [ "Processing..."; nl @@ "Canvas Assistant:"; response; "" ]))
    (fun e =>
       ret (true, [ nl @@ "An error occurred: " @@ exn_str e;
                    "Please try again or type 'exit' to quit." ])).

(** The loop on the lines that the user types, in order; [true] is returned
    when the loop was left by [exit] or [quit], [false] when the lines ran
    out and [input] is waiting.  Interrupts and the end of the input stream
    are not modelled. *)
Fixpoint console (lines : list string) : M (bool * list string) :=
  match lines with
  | [] => ret (false, [])
  | user_input :: rest =>
      r <- console_turn user_input ;;
      if fst r then
        r' <- console rest ;;
        ret (fst r', snd r ++ snd r')
      else ret (true, snd r)
  end.

(** A run of [main_loop]: what it prints, the exit status when the process
    has ended, and the agent when one was built. *)
Record session : Type := mk_session {
  printed : list string;
  exit_status : option Z;
  agent : option state
}.

Definition main_loop (OPENAI_API_KEY CANVAS_ACCESS_TOKEN : option string)
  (lines : list string) (w : World) : session :=
  match missing_vars OPENAI_API_KEY CANVAS_ACCESS_TOKEN with
  | (_ :: _) as missing => mk_session (missing_report missing) (Some 1) None
  | [] =>
      match console lines (new_agent w) with
      | (Ok (ended, out), s) =>
          mk_session (welcome ++ out) (if ended then Some 0 else None) (Some s)
      | (Err e, s) =>
          mk_session (welcome ++ [ "Fatal error: " @@ exn_str e ]) (Some 1) (Some s)
      end
  end.

End Console.

(** ** More words *)

(** [r] is [l] with some elements left out, the order kept. *)
Inductive subsequence {A : Type} : list A -> list A -> Prop :=
| subsequence_nil : subsequence [] []
| subsequence_skip (x : A) (r l : list A) :
    subsequence r l -> subsequence r (x :: l)
| subsequence_keep (x : A) (r l : list A) :
    subsequence r l -> subsequence (x :: r) (x :: l).

(** The line is [exit] or [quit], in any letter case. *)
Definition is_exit (line : string) : bool :=
  String.eqb (lower line) "exit" || String.eqb (lower line) "quit".

(** The line is one of the four commands of the console. *)
Definition is_command (line : string) : bool :=
  is_exit line || String.eqb (lower line) "reset" || String.eqb (lower line) "help".

Section MoreWords.
Context `{PyLib} `{Services}.


(** The arguments of every tool call decode. *)
Definition all_decode (tool_calls : list tool_call) : Prop :=
  forall tc, In tc tool_calls -> exists args, json_loads (tc_arguments tc) = Ok args.

(** An error string of the loop: the name of one of the tool calls and the
    text of the exception. *)
Definition error_of (tool_calls : list tool_call) (error_msg : string) : Prop :=
  exists tc e,
    In tc tool_calls
    /\ error_msg = "Error executing " @@ tc_name tc @@ ": " @@ exn_str e.

(** The backend answers no request. *)
Definition backend_down : Prop :=
  (forall ep w, exists e, fst (request_list ep w) = Err e)
  /\ (forall ep w, exists e, fst (request_dict ep w) = Err e).

(** The requests that [get_assignment_summary] makes for one course: the
    assignments are fetched and the clock is read, once for the late and once
    for the upcoming assignments. *)
Definition course_events (course : dict) : list event :=
  [ CanvasGet (Assignments (get course "id")); ClockRead;
    CanvasGet (Assignments (get course "id")); ClockRead ].

(** The text that the gateway gives for a failure of the provider. *)
Definition apology (e : exn) : string :=
  "I'm sorry, I encountered an error: " @@ exn_str e.

(** The text that [process_message] gives when the handling of the tool
    calls raises. *)
Definition tool_failure_text (e : exn) : string :=
  "I tried to retrieve information from Canvas, but encountered an error: "
  @@ exn_str e @@ nl @@ nl @@
  "Please check your Canvas API configuration and ensure the server is running.".

(** The state with one more assistant turn. *)
Definition with_assistant (s : state) (text : string) : state :=
  mk_state (context s ++ [ mk_turn "assistant" None text ])
    (system_prompt s) (world s) (trace s).

(** The history as [process_message] leaves it after the user turn. *)
Definition history_with (history : list turn) (message : string) : list turn :=
  skipn (length (history ++ [ mk_turn "user" None message ]) - MAX_CONTEXT_LENGTH)
    (history ++ [ mk_turn "user" None message ]).

(** The first request of [process_message]: its messages, and the state
    once the model has answered. *)
Definition first_messages (s : state) (message : string) : list turn :=
  system_turn (system_prompt s) :: history_with (context s) message.

Definition after_first_request (s : state) (message : string) : state :=
  mk_state (history_with (context s) message) (system_prompt s)
    (snd (chat_completions_create (first_messages s message) (Some tools) (world s)))
    (trace s ++ [ ChatCompletion (first_messages s message) (Some tools) ]).

(** The response that [generate_with_tools] hands to [process_message]. *)
Definition first_response (s : state) (message : string) : completion :=
  match fst (chat_completions_create (first_messages s message) (Some tools) (world s)) with
  | Ok response => response
  | Err e => mk_completion (apology e) []
  end.

End MoreWords.

(** ** Response texts for the worked examples of the envelope *)

Module Wire.

Definition q : string := Sample.quote.

(** The text of an envelope that carries an empty list. *)
Definition success_text : string :=
  "{" @@ q @@ "success" @@ q @@ ": true, " @@ q @@ "data" @@ q @@ ": []}".

(** The text of an envelope that reports an error. *)
Definition failure_text : string :=
  "{" @@ q @@ "success" @@ q @@ ": false, " @@ q @@ "error" @@ q @@ ": "
  @@ q @@ "Course not found" @@ q @@ "}".

(** A decoder for the response texts of the examples: the two envelopes are
    decoded, and a text that starts with a letter is refused with the message
    [json.loads] has for it. *)
Definition json_loads (s : string) : result json :=
  if String.eqb s success_text then
    Ok (JDict [ ("success", JBool true); ("data", JList []) ])
  else if String.eqb s failure_text then
    Ok (JDict [ ("success", JBool false); ("error", JStr "Course not found") ])
  else Err (Exn JSONDecodeError "Expecting value: line 1 column 1 (char 0)").

Definition lib : PyLib :=
  Build_PyLib json_loads Sample.json_dumps Sample.py_str Sample.fromisoformat
    (fun _ => []) (fun _ => "").

End Wire.

(** * Properties *)

(** ** The conversation history and its maximum *)

Section History.
Context `{Services}.

Lemma slice_last_skipn {A : Type} (n : nat) (l : list A) :
  (0 < n)%nat -> slice_last n l = skipn (length l - n) l.
Proof. destruct n; [lia | reflexivity]. Qed.

Lemma skipn_app_last {A : Type} (k : nat) (l : list A) (x : A) :
  (k <= length l)%nat -> skipn k (l ++ [x]) = skipn k l ++ [x].
Proof.
  revert k; induction l as [|a l IH]; intros [|k] Hk; simpl in *; try reflexivity.
  - lia.
  - apply IH; lia.
Qed.

Lemma add_user_message_run (message : string) (s : state) :
  add_user_message message s =
    (Ok tt,
     mk_state
       (skipn (length (context s ++ [mk_turn "user" None message]) - MAX_CONTEXT_LENGTH)
          (context s ++ [mk_turn "user" None message]))
       (system_prompt s) (world s) (trace s)).
Proof.
  unfold add_user_message, bind, context_append, get_context, set_context, ret.
  cbn [context system_prompt world trace].
  destruct (Nat.ltb MAX_CONTEXT_LENGTH
              (length (context s ++ [mk_turn "user" None message]))) eqn:E.
  - rewrite slice_last_skipn by (unfold MAX_CONTEXT_LENGTH; lia). reflexivity.
  - apply Nat.ltb_ge in E.
    replace (length (context s ++ [mk_turn "user" None message]) - MAX_CONTEXT_LENGTH)%nat
      with 0%nat by lia.
    reflexivity.
Qed.


End History.


(** ** Substring search and case *)






(** ** find_assignment_by_name *)



(** The pattern [quiz] finds the assignment named [Quiz 1: Intro], passing
    over an earlier assignment that does not match. *)
Example quiz_finds_Quiz_1_Intro :
  find_loop (lower "quiz")
    [ Sample.assignment 1 "Homework 1" "2024-01-01T00:00:00Z";
      Sample.assignment 2 "Quiz 1: Intro" "2024-03-01T00:00:00Z";
      Sample.assignment 3 "Quiz 2" "2024-04-01T00:00:00Z" ]
  = Ok (Some (Sample.assignment 2 "Quiz 1: Intro" "2024-03-01T00:00:00Z")).
Proof. reflexivity. Qed.


(** ** The upcoming filter *)

Section Upcoming.
Context `{PyLib}.



(** An assignment that is not skipped and whose due date carries an offset
    stops the loop with the [TypeError] of the comparison. *)
Lemma upcoming_keeps_aware (now cutoff : Z) (a : dict) (due_date : datetime) (off : Z) :
  skipped a = false ->
  parse_due a = Some due_date ->
  dt_utcoffset due_date = Some off ->
  upcoming_keeps (naive now) (naive cutoff) a = Err cannot_compare.
Proof.
  intros Hs Hp Ho. unfold upcoming_keeps. rewrite Hs, Hp.
  unfold dt_lt. cbn [naive dt_utcoffset]. now rewrite Ho.
Qed.

Lemma upcoming_keeps_error (now cutoff : datetime) (a : dict) (e : exn) :
  upcoming_keeps now cutoff a = Err e -> e = cannot_compare.
Proof.
  unfold upcoming_keeps, dt_lt, dt_le.
  destruct (skipped a); [discriminate |].
  destruct (parse_due a) as [due|]; [| discriminate].
  destruct (dt_utcoffset now), (dt_utcoffset due), (dt_utcoffset cutoff);
    repeat match goal with
           | |- context [if ?b then _ else _] => destruct b
           end;
    intros [= <-]; reflexivity.
Qed.

Lemma filter_loop_raises {A : Type} (f : A -> result bool) (l : list A) (a : A)
  (e : exn) :
  (forall b e', f b = Err e' -> e' = e) ->
  In a l -> f a = Err e -> filter_loop f l = Err e.
Proof.
  intros Huniq. induction l as [|x l IH]; intros Hin Ha; [destruct Hin |].
  cbn [filter_loop]. destruct (f x) as [b|e'] eqn:Ex.
  - destruct Hin as [-> | Hin]; [congruence |].
    now rewrite (IH Hin Ha).
  - now rewrite (Huniq x e' Ex).
Qed.

(** One assignment that is not skipped and is due at a time with an offset
    is enough for the whole operation to raise, whatever the horizon. *)
Lemma upcoming_of_raises_on_offset (now days : Z) (l : list dict) (a : dict)
  (due_date : datetime) (off : Z) :
  In a l ->
  skipped a = false ->
  parse_due a = Some due_date ->
  dt_utcoffset due_date = Some off ->
  upcoming_of now days l = Err cannot_compare.
Proof.
  intros Hin Hs Hp Ho. unfold upcoming_of.
  apply filter_loop_raises with (a := a).
  - intros b e'. apply upcoming_keeps_error.
  - exact Hin.
  - unfold add_days, naive. cbn [dt_wall dt_utcoffset].
    eapply (upcoming_keeps_aware now); eassumption.
Qed.




End Upcoming.



(** C4, at the failing input.  One assignment, not submitted, due
    2030-01-01T00:00:00Z: the text parses (after [Z] is replaced) to a value
    with a UTC offset, the comparison with the naive [now] raises
    [TypeError], the [except (ValueError, AttributeError)] clause does not
    catch it, and the operation raises instead of returning the assignment. *)
Theorem upcoming_raises_on_utc_due_date :
  let S := Sample.services (Ok [])
             (fun _ => Ok [ Sample.assignment 1 "Essay" "2030-01-01T00:00:00Z" ])
             (Ok []) Sample.noon_2024_02_01 (Sample.text_reply "") in
  @parse_due Sample.lib (Sample.assignment 1 "Essay" "2030-01-01T00:00:00Z")
    = Some (mk_datetime 1893456000000000 (Some 0))
  /\ @upcoming_of Sample.lib Sample.noon_2024_02_01 3650
       [ Sample.assignment 1 "Essay" "2030-01-01T00:00:00Z" ]
     = Err cannot_compare
  /\ fst (@get_upcoming_assignments Sample.lib S (JInt 101) (JInt 3650)
            (@Sample.fresh S tt []))
     = Err cannot_compare.
Proof. vm_compute. repeat split. Qed.

(** ** The assignment summary *)

Lemma insert_by_sorted {A : Type} (key : A -> string) (x : A) (l : list A) :
  Sorted (fun a b => String.leb (key a) (key b) = true) l ->
  Sorted (fun a b => String.leb (key a) (key b) = true) (insert_by key x l).
Proof.
  induction l as [|y l IH]; intros Hs; cbn [insert_by].
  - repeat constructor.
  - destruct (String.leb (key x) (key y)) eqn:E.
    + constructor; [exact Hs | constructor; exact E].
    + inversion Hs as [|? ? Hs' Hhd]; subst.
      constructor; [apply IH; exact Hs' |].
      assert (Hyx : String.leb (key y) (key x) = true).
      { destruct (String.leb_total (key x) (key y)); congruence. }
      destruct l as [|z l]; cbn [insert_by].
      * constructor; exact Hyx.
      * destruct (String.leb (key x) (key z)).
        -- constructor; exact Hyx.
        -- inversion Hhd; subst. constructor; assumption.
Qed.

Lemma sort_by_sorted {A : Type} (key : A -> string) (l : list A) :
  Sorted (fun a b => String.leb (key a) (key b) = true) (sort_by key l).
Proof.
  unfold sort_by. induction l as [|x l IH]; cbn [fold_right].
  - constructor.
  - apply insert_by_sorted, IH.
Qed.

Lemma insert_by_perm {A : Type} (key : A -> string) (x : A) (l : list A) :
  Permutation (x :: l) (insert_by key x l).
Proof.
  induction l as [|y l IH]; cbn [insert_by]; [reflexivity |].
  destruct (String.leb (key x) (key y)); [reflexivity |].
  rewrite perm_swap. now apply perm_skip.
Qed.

Lemma sort_by_perm {A : Type} (key : A -> string) (l : list A) :
  Permutation l (sort_by key l).
Proof.
  unfold sort_by. induction l as [|x l IH]; cbn [fold_right]; [reflexivity |].
  rewrite <- insert_by_perm. now apply perm_skip.
Qed.

Lemma sort_by_due_date_sorted (l r : list dict) :
  sort_by_due_date l = Ok r -> sorted_by_due_date r /\ Permutation l r.
Proof.
  unfold sort_by_due_date. destruct (forallb _ l); [| discriminate].
  intros [= <-]. split; [apply sort_by_sorted | apply sort_by_perm].
Qed.

Section Summary.
Context `{PyLib} `{Services}.

Lemma filter_loop_kept {A : Type} (f : A -> result bool) (l r : list A) :
  filter_loop f l = Ok r -> forall a, In a r -> f a = Ok true.
Proof.
  revert r; induction l as [|x l IH]; intros r; cbn [filter_loop].
  - intros [= <-] a [].
  - destruct (f x) as [b|e] eqn:Ex; [| discriminate].
    destruct (filter_loop f l) as [r0|e]; [| discriminate].
    intros [= <-] a Ha. destruct b.
    + destruct Ha as [<- | Ha]; [exact Ex | now apply (IH r0)].
    + now apply (IH r0).
Qed.

(** An assignment that a filter keeps has a due date that is text, so the
    entry made of it has a text key. *)
Lemma kept_has_text_key (keeps : dict -> result bool) (a : dict)
  (course_name course_id : json) :
  (forall b, keeps b = Ok true -> parse_due b <> None) ->
  keeps a = Ok true ->
  due_date_key (summary_entry course_name course_id a) <> None.
Proof.
  intros Hk Ha. specialize (Hk a Ha). unfold parse_due in Hk.
  unfold due_date_key, summary_entry, get_default. cbn [dict_lookup String.eqb].
  cbn. destruct (get a "due_at"); congruence.
Qed.

Lemma upcoming_keeps_parsed (now cutoff : datetime) (b : dict) :
  upcoming_keeps now cutoff b = Ok true -> parse_due b <> None.
Proof.
  unfold upcoming_keeps. destruct (skipped b); [discriminate |].
  destruct (parse_due b); [discriminate | discriminate].
Qed.

Lemma late_keeps_parsed (now : datetime) (b : dict) :
  late_keeps now b = Ok true -> parse_due b <> None.
Proof.
  unfold late_keeps. destruct (skipped b); [discriminate |].
  destruct (parse_due b); [discriminate | discriminate].
Qed.

Lemma summary_loop_text_keys (courses late_acc upcoming_acc : list dict)
  (s s' : state) (lists : list dict * list dict) :
  text_keys late_acc -> text_keys upcoming_acc ->
  summary_loop courses late_acc upcoming_acc s = (Ok lists, s') ->
  text_keys (fst lists) /\ text_keys (snd lists).
Proof.
  revert late_acc upcoming_acc s.
  induction courses as [|c courses IH]; intros late_acc upcoming_acc s Hl Hu;
    cbn [summary_loop].
  - unfold ret. intros [= <- <-]. auto.
  - unfold bind at 1.
    destruct (get_late_assignments (get c "id") s) as [[late|e] s1] eqn:El;
      [| discriminate].
    unfold bind at 1.
    destruct (get_upcoming_assignments (get c "id") (JInt 7) s1)
      as [[upcoming|e] s2] eqn:Eu; [| discriminate].
    apply IH.
    + apply Forall_app. split; [exact Hl |].
      apply Forall_forall. intros x Hx. apply in_map_iff in Hx as (a & <- & Ha).
      revert El. unfold get_late_assignments, bind, datetime_now, ask, lift.
      destruct (get_assignments (get c "id") s) as [[all|e] s0]; [| discriminate].
      destruct (clock (world s0)) as [now w]. intros [= Hf _].
      eapply kept_has_text_key; [apply late_keeps_parsed |].
      eapply filter_loop_kept; eassumption.
    + apply Forall_app. split; [exact Hu |].
      apply Forall_forall. intros x Hx. apply in_map_iff in Hx as (a & <- & Ha).
      revert Eu. unfold get_upcoming_assignments, bind, datetime_now, ask, lift.
      destruct (get_assignments (get c "id") s1) as [[all|e] s0]; [| discriminate].
      destruct (clock (world s0)) as [now w]. cbn [as_int]. intros [= Hf _].
      eapply kept_has_text_key; [apply upcoming_keeps_parsed |].
      eapply filter_loop_kept; eassumption.
Qed.

(** The sort of the summary never meets a key that is not text: once the
    loop over the courses has ended, both sorts return. *)
Lemma summary_sorts_return (courses : list dict) (s s' : state)
  (lists : list dict * list dict) :
  summary_loop courses [] [] s = (Ok lists, s') ->
  sort_by_due_date (fst lists) = Ok (sort_by key_text (fst lists))
  /\ sort_by_due_date (snd lists) = Ok (sort_by key_text (snd lists)).
Proof.
  intros Hl.
  apply summary_loop_text_keys in Hl as [H1 H2]; try (constructor; fail).
  assert (Hall : forall l, text_keys l ->
            forallb (fun x => match due_date_key x with
                              | Some _ => true
                              | None => false
                              end) l = true).
  { intros l Hf. apply forallb_forall. intros x Hx.
    unfold text_keys in Hf. rewrite Forall_forall in Hf. specialize (Hf x Hx).
    destruct (due_date_key x); congruence. }
  unfold sort_by_due_date. now rewrite !Hall.
Qed.

(** When [get_assignment_summary] returns a summary of courses, its two
    lists are sorted ascending by the due-date string. *)
Lemma get_assignment_summary_sorted (max_courses : json) (s s' : state)
  (summary : dict) (field : string) (l : list json) :
  get_assignment_summary max_courses s = (Ok summary, s') ->
  field = "late_assignments" \/ field = "upcoming_assignments" ->
  dict_lookup field summary = Some (JList l) ->
  exists entries, l = map JDict entries /\ sorted_by_due_date entries.
Proof.
  unfold get_assignment_summary, bind.
  destruct (get_courses s) as [[courses|e] s1]; [| discriminate].
  destruct courses as [|c courses].
  { unfold ret. intros [= <- <-]. intros [-> | ->]; discriminate. }
  destruct (as_int max_courses) as [n|]; [| discriminate].
  destruct (summary_loop _ [] [] s1) as [[[late upcoming]|e] s2]; [| discriminate].
  cbn [fst snd]. unfold lift.
  destruct (sort_by_due_date late) as [late_sorted|e] eqn:El; [| discriminate].
  destruct (sort_by_due_date upcoming) as [upcoming_sorted|e] eqn:Eu; [| discriminate].
  unfold ret. intros [= <- <-].
  apply sort_by_due_date_sorted in El as [El _].
  apply sort_by_due_date_sorted in Eu as [Eu _].
  intros [-> | ->]; cbn; intros [= <-]; eauto.
Qed.

End Summary.

(** With due dates written without an offset, the March assignment listed
    before the January one comes out after it. *)
Example summary_orders_January_before_March :
  let S := Sample.services (Ok [ Sample.course 101 "Biology" ])
             (fun _ => Ok [ Sample.assignment 1 "March essay" "2024-03-01T00:00:00";
                            Sample.assignment 2 "January essay" "2024-01-01T00:00:00" ])
             (Ok []) Sample.noon_2025_02_01 (Sample.text_reply "") in
  match fst (@get_assignment_summary Sample.lib S (JInt 5) (@Sample.fresh S tt [])) with
  | Ok summary =>
      match get summary "late_assignments" with
      | JList l => map (fun e => match e with
                                 | JDict d => get d "due_date"
                                 | _ => JNull
                                 end) l
      | _ => []
      end
  | Err _ => []
  end
  = [ JStr "2024-01-01T00:00:00"; JStr "2024-03-01T00:00:00" ].
Proof. vm_compute. reflexivity. Qed.

(** C7, at the failing input.  The two assignments of the claim, due
    2024-03-01T00:00:00Z and 2024-01-01T00:00:00Z and not submitted: the
    summary asks for the late assignments of the course, the first due date
    parses to a value with a UTC offset, its comparison with the naive [now]
    raises [TypeError], and [get_assignment_summary] raises: no list is
    returned, in any order. *)
Theorem summary_raises_on_utc_due_dates :
  let S := Sample.services (Ok [ Sample.course 101 "Biology" ])
             (fun _ => Ok [ Sample.assignment 1 "March essay" "2024-03-01T00:00:00Z";
                            Sample.assignment 2 "January essay" "2024-01-01T00:00:00Z" ])
             (Ok []) Sample.noon_2025_02_01 (Sample.text_reply "") in
  fst (@get_assignment_summary Sample.lib S (JInt 5) (@Sample.fresh S tt []))
  = Err cannot_compare.
Proof. vm_compute. reflexivity. Qed.

(** ** What the adapter and the dispatch leave untouched *)

Section Frame.
Context `{PyLib} `{Services}.

Lemma frame_ret {A : Type} (a : A) : frame (ret a).
Proof. intros s; split; reflexivity. Qed.

Lemma frame_raise {A : Type} (e : exn) : frame (@raise _ A e).
Proof. intros s; split; reflexivity. Qed.

Lemma frame_lift {A : Type} (r : result A) : frame (lift r).
Proof. intros s; split; reflexivity. Qed.

Lemma frame_ask {A : Type} (ev : event) (f : World -> A * World) : frame (ask ev f).
Proof. intros s. unfold ask. destruct (f (world s)). split; reflexivity. Qed.

Lemma frame_bind {A B : Type} (m : M A) (k : A -> M B) :
  frame m -> (forall a, frame (k a)) -> frame (bind m k).
Proof.
  intros Hm Hk s. unfold bind. specialize (Hm s).
  destruct (m s) as [[a|e] s1]; cbn [snd] in *.
  - destruct (Hk a s1) as [H1 H2]. destruct Hm as [H3 H4]. split; congruence.
  - exact Hm.
Qed.

Lemma frame_try_except {A : Type} (m : M A) (h : exn -> M A) :
  frame m -> (forall e, frame (h e)) -> frame (try_except m h).
Proof.
  intros Hm Hh s. unfold try_except. specialize (Hm s).
  destruct (m s) as [[a|e] s1]; cbn [snd] in *.
  - exact Hm.
  - destruct (Hh e s1) as [H1 H2]. destruct Hm as [H3 H4]. split; congruence.
Qed.

End Frame.

Create HintDb frame.
#[local] Hint Resolve frame_ret frame_raise frame_lift frame_ask : frame.

Ltac frame_step :=
  first
    [ solve [auto with frame]
    | apply frame_bind; [| intros ?]
    | apply frame_try_except; [| intros ?]
    | match goal with
      | |- frame (match ?x with _ => _ end) => destruct x
      | |- frame (if ?b then _ else _) => destruct b
      | |- frame (let _ := _ in _) => cbv zeta
      end ].

Ltac frame_solve := repeat frame_step.

Section FrameOperations.
Context `{PyLib} `{Services}.

Lemma frame_make_request_list (ep : endpoint) : frame (make_request_list ep).
Proof. unfold make_request_list. frame_solve. Qed.

Lemma frame_make_request_dict (ep : endpoint) : frame (make_request_dict ep).
Proof. unfold make_request_dict. frame_solve. Qed.

Lemma frame_get_upcoming_assignments (course_id days : json) :
  frame (get_upcoming_assignments course_id days).
Proof.
  unfold get_upcoming_assignments, get_assignments, datetime_now,
    make_request_list.
  frame_solve.
Qed.

Lemma frame_get_late_assignments (course_id : json) :
  frame (get_late_assignments course_id).
Proof.
  unfold get_late_assignments, get_assignments, datetime_now, make_request_list.
  frame_solve.
Qed.

Lemma frame_summary_loop (courses late_acc upcoming_acc : list dict) :
  frame (summary_loop courses late_acc upcoming_acc).
Proof.
  revert late_acc upcoming_acc.
  induction courses as [|c courses IH]; intros; cbn [summary_loop].
  - apply frame_ret.
  - apply frame_bind; [apply frame_get_late_assignments | intros late].
    apply frame_bind; [apply frame_get_upcoming_assignments | intros upcoming].
    apply IH.
Qed.

Lemma frame_get_assignment_summary (max_courses : json) :
  frame (get_assignment_summary max_courses).
Proof.
  unfold get_assignment_summary, get_courses.
  apply frame_bind; [apply frame_make_request_list | intros courses].
  destruct courses; [apply frame_ret |].
  destruct (as_int max_courses); [| apply frame_raise].
  apply frame_bind; [apply frame_summary_loop | intros lists].
  frame_solve.
Qed.

Lemma frame_get_assignment_details (course_id assignment_id : json) :
  frame (get_assignment_details course_id assignment_id).
Proof.
  unfold get_assignment_details, get_assignment.
  apply frame_bind; [apply frame_make_request_dict | intros d].
  frame_solve.
Qed.

Lemma frame_find_assignment_by_name (course_id name_pattern : json) :
  frame (find_assignment_by_name course_id name_pattern).
Proof.
  unfold find_assignment_by_name, get_assignments.
  apply frame_bind; [apply frame_make_request_list | intros l].
  frame_solve.
Qed.

Lemma frame_args_get (a : json) (k : string) : frame (args_get a k).
Proof. unfold args_get. frame_solve. Qed.

Lemma frame_args_get_default (a : json) (k : string) (d : json) :
  frame (args_get_default a k d).
Proof. unfold args_get_default. frame_solve. Qed.

End FrameOperations.

#[local] Hint Resolve frame_make_request_list frame_make_request_dict
  frame_summary_loop frame_get_upcoming_assignments frame_get_late_assignments
  frame_get_assignment_summary frame_get_assignment_details
  frame_find_assignment_by_name frame_args_get frame_args_get_default : frame.

Section FrameDispatch.
Context `{PyLib} `{Services}.

Lemma frame_dispatch (fn : string) (args : json) (results : list string)
  (large : bool) : frame (dispatch fn args results large).
Proof.
  unfold dispatch, get_courses, get_course, get_assignments, get_user_profile.
  repeat match goal with
         | |- frame (if ?b then _ else _) => destruct b
         end;
    frame_solve.
Qed.

Lemma frame_handle_tool_call (l : locals) (tc : tool_call) :
  frame (handle_tool_call l tc).
Proof.
  unfold handle_tool_call.
  destruct (json_loads (tc_arguments tc)); [| apply frame_raise].
  apply frame_try_except; [| intros e; apply frame_ret].
  apply frame_bind; [apply frame_dispatch | intros r; apply frame_ret].
Qed.

Lemma frame_tool_loop (tool_calls : list tool_call) (l : locals) :
  frame (tool_loop l tool_calls).
Proof.
  revert l; induction tool_calls as [|tc rest IH]; intros l; cbn [tool_loop].
  - apply frame_ret.
  - apply frame_bind; [apply frame_handle_tool_call | intros l'; apply IH].
Qed.

End FrameDispatch.

(** ** The dispatch chain *)

Section Dispatch.
Context `{PyLib} `{Services}.

Ltac run_all :=
  repeat (cbv beta iota;
          match goal with
          | |- context [match ?x with _ => _ end] => destruct x
          end).

(** The chain adds to [results] and raises [large_response]; what it adds
    and what it asks of the world do not depend on either. *)
Lemma dispatch_normal_form (fn : string) (args : json) (results : list string)
  (large : bool) (s : state) :
  dispatch fn args results large s =
    match dispatch fn args [] false s with
    | (Ok (r, g), s') => (Ok (results ++ r, large || g), s')
    | (Err e, s') => (Err e, s')
    end.
Proof.
  unfold dispatch, bind, ret.
  run_all; cbn [app]; rewrite ?app_nil_r, ?orb_false_r, ?orb_true_r; reflexivity.
Qed.

Lemma dispatch_get_assignments_eq (args : json) (results : list string)
  (large : bool) :
  dispatch "get_assignments" args results large =
    (course_id <- args_get args "course_id" ;;
     result <- get_assignments course_id ;;
     ret (results ++
            ["Assignments: " @@ dumps_dicts (map simplify_assignment (firstn 15 result))],
          if Nat.ltb 10 (length result) then true else large)).
Proof. reflexivity. Qed.

(** Only the branch of [get_assignments] raises the flag. *)
Lemma dispatch_other_keeps_flag (fn : string) (args : json) (s s' : state)
  (r : list string) (g : bool) :
  String.eqb fn "get_assignments" = false ->
  dispatch fn args [] false s = (Ok (r, g), s') -> g = false.
Proof.
  intros E. unfold dispatch, bind, ret. rewrite E.
  run_all; intros [= <- <- <-]; reflexivity.
Qed.

(** A name outside the catalog falls through every test. *)
Lemma dispatch_unknown (fn : string) (args : json) (results : list string)
  (large : bool) :
  ~ In fn tools -> dispatch fn args results large = ret (results, large).
Proof.
  intros Hn. unfold dispatch.
  repeat match goal with
         | |- context [if String.eqb fn ?t then _ else _] =>
             destruct (String.eqb_spec fn t) as [->|_];
             [exfalso; apply Hn; unfold tools; simpl; tauto |]
         end.
  reflexivity.
Qed.

(** The flag that the chain returns, read off the answer of the backend. *)
Lemma dispatch_flag (tc : tool_call) (args : json) (s : state) :
  json_loads (tc_arguments tc) = Ok args ->
  brings_large_list tc s =
    match fst (dispatch (tc_name tc) args [] false s) with
    | Ok rg => snd rg
    | Err _ => false
    end.
Proof.
  intros Hargs. unfold brings_large_list. rewrite Hargs.
  destruct (String.eqb (tc_name tc) "get_assignments") eqn:En.
  - apply String.eqb_eq in En. rewrite En.
    rewrite dispatch_get_assignments_eq.
    cbv beta iota delta [bind args_get get_assignments make_request_list ask lift ret raise].
    destruct args; cbn [fst snd andb]; try reflexivity.
    destruct (request_list (Assignments (get d "course_id")) (world s)) as [[result|e] w];
      cbn [fst snd]; [| reflexivity].
    destruct (Nat.ltb 10 (length result)); reflexivity.
  - cbn [andb].
    destruct (dispatch (tc_name tc) args [] false s) as [[[r g]|e] s'] eqn:Ed;
      cbn [fst snd]; [| reflexivity].
    symmetry. eapply dispatch_other_keeps_flag; eassumption.
Qed.

(** One turn of the loop, when the arguments decode: it never raises, it
    binds [function_name], and it raises the flag exactly when the
    invocation is a [get_assignments] whose fetch brings more than ten items.
    The state it leaves does not depend on the locals. *)
Lemma handle_tool_call_decoded (l : locals) (tc : tool_call) (s : state)
  (args : json) :
  json_loads (tc_arguments tc) = Ok args ->
  exists l',
    handle_tool_call l tc s = (Ok l', snd (handle_tool_call initial_locals tc s))
    /\ function_name l' = Some (tc_name tc)
    /\ large_response l' = large_response l || brings_large_list tc s.
Proof.
  intros Hargs. rewrite (dispatch_flag tc args s Hargs).
  unfold handle_tool_call. rewrite Hargs.
  unfold try_except, bind. cbn [results large_response errors initial_locals].
  rewrite (dispatch_normal_form _ _ (results l) (large_response l)).
  destruct (dispatch (tc_name tc) args [] false s) as [[[r g]|e] s'];
    cbn [fst snd ret]; eexists; (split; [reflexivity |]);
    cbn [function_name large_response fst snd]; rewrite ?orb_false_r; auto.
Qed.

(** The turn that a name outside the catalog takes, when its arguments
    decode: nothing is added to [results] or [errors], the flag and the whole
    state stay, no request is made. *)
Lemma handle_tool_call_unknown (l : locals) (tc : tool_call) (s : state)
  (args : json) :
  ~ In (tc_name tc) tools ->
  json_loads (tc_arguments tc) = Ok args ->
  handle_tool_call l tc s =
    (Ok (mk_locals (Some (tc_name tc)) (results l) (errors l) (large_response l)), s).
Proof.
  intros Hn Hargs. unfold handle_tool_call. rewrite Hargs.
  rewrite dispatch_unknown by exact Hn. reflexivity.
Qed.

(** The value of [function_name] is never read by a turn of the loop. *)
Lemma handle_tool_call_ignores_name (fn fn' : option string) (r e : list string)
  (g : bool) (tc : tool_call) :
  handle_tool_call (mk_locals fn r e g) tc = handle_tool_call (mk_locals fn' r e g) tc.
Proof. reflexivity. Qed.

(** The flag after the loop. *)
Lemma tool_loop_flag (tool_calls : list tool_call) (l0 l : locals) (s s1 : state) :
  tool_loop l0 tool_calls s = (Ok l, s1) ->
  large_response l = large_response l0 || large_list_seen tool_calls s.
Proof.
  revert l0 s; induction tool_calls as [|tc rest IH]; intros l0 s;
    cbn [tool_loop large_list_seen].
  - unfold ret. intros [= <- <-]. now rewrite orb_false_r.
  - unfold bind.
    destruct (json_loads (tc_arguments tc)) as [args|e0] eqn:Hargs.
    + destruct (handle_tool_call_decoded l0 tc s args Hargs) as (l' & Hrun & _ & Hflag).
      rewrite Hrun. intros Hrest. apply IH in Hrest.
      rewrite Hrest, Hflag. now rewrite orb_assoc.
    + unfold handle_tool_call at 1. rewrite Hargs. unfold raise. discriminate.
Qed.

(** After a loop over at least one tool call [function_name] is bound to
    the name of the last one. *)
Lemma tool_loop_function_name (tool_calls : list tool_call) (l0 l : locals)
  (s s1 : state) :
  tool_loop l0 tool_calls s = (Ok l, s1) ->
  function_name l =
    fold_left (fun _ tc => Some (tc_name tc)) tool_calls (function_name l0).
Proof.
  revert l0 s; induction tool_calls as [|tc rest IH]; intros l0 s;
    cbn [tool_loop fold_left].
  - unfold ret. now intros [= <- <-].
  - unfold bind.
    destruct (json_loads (tc_arguments tc)) as [args|e0] eqn:Hargs.
    + destruct (handle_tool_call_decoded l0 tc s args Hargs) as (l' & Hrun & Hname & _).
      rewrite Hrun. intros Hrest. apply IH in Hrest. now rewrite Hrest, Hname.
    + unfold handle_tool_call at 1. rewrite Hargs. unfold raise. discriminate.
Qed.

(** Results exist only once a name is bound. *)
Lemma tool_loop_results_named (tool_calls : list tool_call) (l0 l : locals)
  (s s1 : state) :
  tool_loop l0 tool_calls s = (Ok l, s1) ->
  (function_name l0 = None -> results l0 = []) ->
  function_name l = None -> results l = [].
Proof.
  revert l0 s; induction tool_calls as [|tc rest IH]; intros l0 s;
    cbn [tool_loop].
  - unfold ret. now intros [= <- <-].
  - unfold bind.
    destruct (json_loads (tc_arguments tc)) as [args|e0] eqn:Hargs.
    + destruct (handle_tool_call_decoded l0 tc s args Hargs) as (l' & Hrun & Hname & _).
      rewrite Hrun. intros Hrest _. eapply IH; [exact Hrest |].
      rewrite Hname. discriminate.
    + unfold handle_tool_call at 1. rewrite Hargs. unfold raise. discriminate.
Qed.

End Dispatch.

(** ** The dispatch cycle as a whole *)

Section Cycle.
Context `{PyLib} `{Services}.

Lemma append_results_run (fn : string) (rs : list string) (s : state) :
  append_results (Some fn) rs s =
    (Ok tt,
     mk_state (context s ++ map (mk_turn "function" (Some fn)) rs)
       (system_prompt s) (world s) (trace s)).
Proof.
  revert s; induction rs as [|r rs IH]; intros s; cbn [append_results map].
  - rewrite app_nil_r. destruct s; reflexivity.
  - unfold bind, context_append. rewrite IH. cbn [context system_prompt world trace].
    now rewrite <- app_assoc.
Qed.

Lemma tool_loop_app (a b : list tool_call) (l : locals) (s : state) :
  tool_loop l (a ++ b) s =
    match tool_loop l a s with
    | (Ok l1, s1) => tool_loop l1 b s1
    | (Err e, s1) => (Err e, s1)
    end.
Proof.
  revert l s; induction a as [|tc a IH]; intros l s; cbn [tool_loop app].
  - reflexivity.
  - unfold bind. destruct (handle_tool_call l tc s) as [[l'|e] s'].
    + apply IH.
    + reflexivity.
Qed.

(** The loop fails exactly by the decoding of some arguments; a cycle whose
    loop fails ends with that exception, before any turn is appended. *)
Lemma handle_tool_calls_fail (tool_calls : list tool_call) (s s1 : state) (e : exn) :
  tool_loop initial_locals tool_calls s = (Err e, s1) ->
  _handle_tool_calls tool_calls s = (Err e, s1).
Proof. intros Hl. unfold _handle_tool_calls, bind. now rewrite Hl. Qed.

(** A cycle whose loop ends: the turns it appends, the prompt of the final
    request and the answer. *)
Lemma handle_tool_calls_run (tool_calls : list tool_call) (s s1 : state) (l : locals) :
  tool_loop initial_locals tool_calls s = (Ok l, s1) ->
  let ctx := context s ++ result_turns (function_name l) (results l)
             ++ error_turns (errors l) in
  let target :=
    if large_response l then system_prompt s @@ concise_suffix else system_prompt s in
  let full := system_turn target :: ctx in
  let reply := chat_completions_create full None (world s1) in
  _handle_tool_calls tool_calls s =
    (Ok (match fst reply with
         | Ok response => message_content response
         | Err e => "I'm sorry, I encountered an error: " @@ exn_str e
         end),
     mk_state ctx (system_prompt s) (snd reply) (trace s1 ++ [ChatCompletion full None])).
Proof.
  intros Hl. cbv zeta.
  destruct (frame_tool_loop tool_calls initial_locals s) as [Hc Hp].
  rewrite Hl in Hc, Hp. cbn [snd] in Hc, Hp.
  pose proof (tool_loop_results_named _ _ _ _ _ Hl (fun _ => eq_refl)) as Hnamed.
  unfold _handle_tool_calls. unfold bind at 1. rewrite Hl.
  assert (Happ : append_results (function_name l) (results l) s1 =
                 (Ok tt, mk_state (context s ++ result_turns (function_name l) (results l))
                           (system_prompt s) (world s1) (trace s1))).
  { destruct (function_name l) as [fn|].
    - rewrite append_results_run, Hc, Hp. reflexivity.
    - rewrite (Hnamed eq_refl). cbn. rewrite app_nil_r, <- Hc, <- Hp.
      destruct s1; reflexivity. }
  unfold bind at 1. rewrite Happ.
  unfold bind at 1.
  destruct (errors l) as [|e0 es] eqn:Ee.
  - cbn [error_turns]. rewrite app_nil_r.
    cbv beta iota delta [bind get_system_prompt get_context generate_response ask ret].
    cbn [context system_prompt world trace].
    destruct (chat_completions_create _ None (world s1)) as [[resp|e] w]; reflexivity.
  - cbn [error_turns].
    cbv beta iota delta [bind get_system_prompt get_context generate_response ask ret
                           context_append].
    cbn [context system_prompt world trace].
    rewrite <- app_assoc.
    destruct (chat_completions_create _ None (world s1)) as [[resp|e] w]; reflexivity.
Qed.

(** C5 (as amended).  A dispatch cycle never writes the stored system
    prompt.  When the cycle completes, its last request is the final model
    call, made on the whole updated history, and the system prompt of that
    call is the stored prompt with the instruction for terser output appended
    exactly when some invocation of the cycle was a [get_assignments] whose
    fetch brought more than ten items; otherwise it is the stored prompt. *)
Theorem concise_prompt_for_large_assignment_list (tool_calls : list tool_call)
  (s : state) :
  system_prompt (snd (_handle_tool_calls tool_calls s)) = system_prompt s
  /\ forall answer s',
       _handle_tool_calls tool_calls s = (Ok answer, s') ->
       last_event s' =
         Some (ChatCompletion
                 (system_turn
                    (if large_list_seen tool_calls s
                     then system_prompt s @@ concise_suffix
                     else system_prompt s)
                  :: context s') None).
Proof.
  destruct (tool_loop initial_locals tool_calls s) as [[l|e] s1] eqn:Hl.
  - pose proof (handle_tool_calls_run _ _ _ _ Hl) as Hrun. cbv zeta in Hrun.
    pose proof (tool_loop_flag _ _ _ _ _ Hl) as Hflag.
    cbn [initial_locals large_response orb] in Hflag.
    rewrite Hrun. cbn [snd system_prompt]. split; [reflexivity |].
    intros answer s' [= _ <-]. unfold last_event. cbn [trace context].
    rewrite map_app. cbn [map]. rewrite last_last, <- Hflag. reflexivity.
  - rewrite (handle_tool_calls_fail _ _ _ _ Hl). cbn [snd]. split.
    + destruct (frame_tool_loop tool_calls initial_locals s) as [_ Hp].
      now rewrite Hl in Hp.
    + discriminate.
Qed.

(** C6.  For the answer of the backend to a [get_assignments] invocation,
    the text that the chain adds to the results is the rendering of the first
    fifteen assignments of the answer, in the order of the answer, each
    reduced to the five fields; a cycle made of that invocation appends one
    function turn with this text and passes it to the final model call. *)
Theorem list_assignments_reduced_and_truncated (arguments : string) (d : dict)
  (s : state) (result : list dict) (w : World) :
  json_loads arguments = Ok (JDict d) ->
  request_list (Assignments (get d "course_id")) (world s) = (Ok result, w) ->
  let shaped := map simplify_assignment (firstn 15 result) in
  let text := "Assignments: " @@ json_dumps (JList (map JDict shaped)) in
  let run := _handle_tool_calls [mk_tool_call "get_assignments" arguments] s in
  (forall results large,
     fst (dispatch "get_assignments" (JDict d) results large s) =
       Ok (results ++ [text], if Nat.ltb 10 (length result) then true else large))
  /\ (exists answer, fst run = Ok answer)
  /\ context (snd run) =
       context s ++ [mk_turn "function" (Some "get_assignments") text]
  /\ (exists prompt,
        last_event (snd run) =
          Some (ChatCompletion (system_turn prompt :: context (snd run)) None))
  /\ length shaped = Nat.min 15 (length result)
  /\ (length shaped <= 15)%nat
  /\ Forall (fun a => keys a = assignment_fields) shaped
  /\ (forall i a, (i < 15)%nat -> nth_error result i = Some a ->
                  nth_error shaped i = Some (simplify_assignment a))
  /\ (forall a,
        get (simplify_assignment a) "id" = get a "id"
        /\ get (simplify_assignment a) "name" = get a "name"
        /\ get (simplify_assignment a) "due_at" = get a "due_at"
        /\ get (simplify_assignment a) "points_possible" = get a "points_possible"
        /\ get (simplify_assignment a) "submitted"
           = get_default a "submitted" (JBool false)).
Proof.
  intros Hargs Hreq shaped text run.
  assert (Hd : forall results large,
             dispatch "get_assignments" (JDict d) results large s =
               (Ok (results ++ [text], if Nat.ltb 10 (length result) then true else large),
                mk_state (context s) (system_prompt s) w
                  (trace s ++ [CanvasGet (Assignments (get d "course_id"))]))).
  { intros results large. rewrite dispatch_get_assignments_eq.
    cbv beta iota delta [bind args_get get_assignments make_request_list ask lift ret raise].
    rewrite Hreq. reflexivity. }
  assert (Hloop : exists l s1,
             tool_loop initial_locals [mk_tool_call "get_assignments" arguments] s
               = (Ok l, s1)
             /\ function_name l = Some "get_assignments"
             /\ results l = [text] /\ errors l = []).
  { cbn [tool_loop]. unfold bind, handle_tool_call. cbn [tc_name tc_arguments].
    rewrite Hargs. unfold try_except, bind. rewrite Hd. cbn [ret fst snd].
    do 2 eexists. split; [reflexivity |]. cbn. auto. }
  destruct Hloop as (l & s1 & Hl & Hfn & Hres & Herr).
  pose proof (handle_tool_calls_run _ _ _ _ Hl) as Hrun. cbv zeta in Hrun.
  rewrite Hfn, Hres, Herr in Hrun. cbn [result_turns error_turns map] in Hrun.
  rewrite app_nil_r in Hrun.
  split; [intros; now rewrite Hd |].
  split; [subst run; rewrite Hrun; eexists; reflexivity |].
  split; [subst run; rewrite Hrun; reflexivity |].
  split.
  { subst run. rewrite Hrun. eexists. unfold last_event. cbn [snd trace context].
    rewrite map_app. cbn [map]. rewrite last_last. reflexivity. }
  split; [subst shaped; now rewrite length_map, length_firstn |].
  split; [subst shaped; rewrite length_map, length_firstn; lia |].
  split.
  { subst shaped. apply Forall_forall. intros a Ha.
    apply in_map_iff in Ha as (a0 & <- & _). reflexivity. }
  split.
  { intros i a Hi Hn. subst shaped. rewrite nth_error_map.
    rewrite nth_error_firstn.
    destruct (Nat.ltb_spec i 15); [| lia]. now rewrite Hn. }
  intros a. repeat split; reflexivity.
Qed.

(** C10 (as amended).  An invocation whose name is none of the nine of
    the catalog and whose arguments decode: its turn of the loop adds nothing
    to [results], nothing to [errors], leaves the flag and makes no request
    (the state is the one it started from); and when another invocation
    follows it, the cycle is the cycle without it. *)
Theorem unknown_tool_falls_through (pre post : list tool_call) (tc : tool_call)
  (args : json) :
  ~ In (tc_name tc) tools ->
  json_loads (tc_arguments tc) = Ok args ->
  (forall l s,
     handle_tool_call l tc s =
       (Ok (mk_locals (Some (tc_name tc)) (results l) (errors l) (large_response l)),
        s))
  /\ (post <> [] ->
      forall s, _handle_tool_calls (pre ++ tc :: post) s
                = _handle_tool_calls (pre ++ post) s).
Proof.
  intros Hn Hargs. split.
  - intros l s. eapply handle_tool_call_unknown; eassumption.
  - intros Hpost s. destruct post as [|tc2 post]; [congruence |].
    assert (Hloop : tool_loop initial_locals (pre ++ tc :: tc2 :: post) s
                    = tool_loop initial_locals (pre ++ tc2 :: post) s).
    { rewrite !tool_loop_app.
      destruct (tool_loop initial_locals pre s) as [[l1|e] s1]; [| reflexivity].
      cbn [tool_loop]. unfold bind at 1.
      rewrite (handle_tool_call_unknown l1 tc s1 args Hn Hargs).
      unfold bind. destruct l1 as [fn r e g]. cbn [results errors large_response].
      now rewrite (handle_tool_call_ignores_name (Some (tc_name tc)) fn). }
    unfold _handle_tool_calls. unfold bind at 1 5. now rewrite Hloop.
Qed.

End Cycle.

(** ** Worked cycles *)

Section NamesOfResults.
Context `{PyLib} `{Services}.

(** Every function turn that a completed cycle appends for a result is
    filed under the name of the last tool call of the cycle. *)
Lemma results_filed_under_last_call (pre : list tool_call) (last_call : tool_call)
  (s s1 : state) (l : locals) :
  tool_loop initial_locals (pre ++ [last_call]) s = (Ok l, s1) ->
  context (snd (_handle_tool_calls (pre ++ [last_call]) s)) =
    context s
    ++ map (mk_turn "function" (Some (tc_name last_call))) (results l)
    ++ error_turns (errors l).
Proof.
  intros Hl. pose proof (handle_tool_calls_run _ _ _ _ Hl) as Hrun.
  cbv zeta in Hrun. rewrite Hrun. cbn [snd context].
  apply tool_loop_function_name in Hl. rewrite fold_left_app in Hl. cbn in Hl.
  now rewrite Hl.
Qed.


End NamesOfResults.

(** C2, at the failing input.  Three tool calls, the second with the
    arguments text of a lone opening brace.  [json.loads] raises before the
    [try] of the second turn is entered, the exception leaves
    [_handle_tool_calls]: the third call is never attempted (the only request
    made is the one of the first call), no error string is recorded and no
    turn is appended, not even for the first call, which had succeeded.
    [process_message] turns the exception into its fallback text. *)
Theorem decode_error_aborts_cycle :
  let calls := [ mk_tool_call "get_courses" "{}";
                 mk_tool_call "get_assignments" "{";
                 mk_tool_call "get_user_profile" "{}" ] in
  let S := Sample.services (Ok [ Sample.course 101 "Biology" ]) (fun _ => Ok [])
             (Ok [ ("name", JStr "Ada") ]) 0
             (mk_completion "Here is what I found." calls) in
  let s := @Sample.fresh S tt [] in
  let run := @_handle_tool_calls Sample.lib S calls s in
  let outer := @process_message Sample.lib S "what is due?" s in
  fst run = Err Sample.unterminated_object
  /\ context (snd run) = []
  /\ trace (snd run) = [ CanvasGet Courses ]
  /\ fst outer =
       Ok ("I tried to retrieve information from Canvas, but encountered an error: "
           @@ exn_str Sample.unterminated_object @@ nl @@ nl @@
           "Please check your Canvas API configuration and ensure the server is running.")
  /\ map role (context (snd outer)) = [ "user"; "assistant" ].
Proof. vm_compute. repeat split. Qed.

(** C3, at the failing input.  Three tool calls: [get_courses] succeeds,
    [get_user_profile] fails, [get_assignments] succeeds.  The transcript
    gets two result turns and one error report naming the failing tool, and
    the final answer is returned; but both result turns carry the name
    [get_assignments], the courses result among them. *)
Theorem result_turns_carry_name_of_last_call :
  let calls := [ mk_tool_call "get_courses" "{}";
                 mk_tool_call "get_user_profile" "{}";
                 mk_tool_call "get_assignments" "{}" ] in
  let S := Sample.services (Ok [ Sample.course 101 "Biology" ])
             (fun _ => Ok [ Sample.assignment 1 "Essay" "2024-03-01T00:00:00Z" ])
             (Err Sample.down) 0 (Sample.text_reply "Here is what I found.") in
  let run := @_handle_tool_calls Sample.lib S calls (@Sample.fresh S tt []) in
  fst run = Ok "Here is what I found."
  /\ map (fun t => (name t, substring 0 8 (content t))) (context (snd run)) =
       [ (Some "get_assignments", "Courses:");
         (Some "get_assignments", "Assignme");
         (Some "error_report", "Errors e") ]
  /\ map content (skipn 2 (context (snd run))) =
       [ "Errors encountered:" @@ nl @@
         "Error executing get_user_profile: Canvas API error (500): Internal Server Error" ].
Proof. vm_compute. repeat split. Qed.

(** C5, as first stated, fails: a [get_courses] result of eleven courses
    is a list-type result of more than ten items, and the final model call of
    its cycle is made with the stored prompt, not with the instruction
    appended. *)
Lemma large_course_list_keeps_stored_prompt :
  let courses := map (fun i => Sample.course (Z.of_nat i) "Course") (seq 1 11) in
  let S := Sample.services (Ok courses) (fun _ => Ok []) (Ok []) 0
             (Sample.text_reply "You have eleven courses.") in
  let run := @_handle_tool_calls Sample.lib S [ mk_tool_call "get_courses" "{}" ]
               (@Sample.fresh S tt []) in
  length courses = 11%nat
  /\ @last_event S (snd run) =
       Some (ChatCompletion
               (system_turn DEFAULT_SYSTEM_PROMPT :: context (snd run)) None)
  /\ @last_event S (snd run) <>
       Some (ChatCompletion
               (system_turn (DEFAULT_SYSTEM_PROMPT @@ concise_suffix)
                :: context (snd run)) None).
Proof.
  vm_compute. split; [reflexivity |]. split; [reflexivity |]. discriminate.
Qed.

Lemma concise_prompt_for_large_assignment_list_witness :
  let assignments :=
    map (fun i => Sample.assignment (Z.of_nat i) "Homework" "2024-03-01T00:00:00Z")
      (seq 1 11) in
  let S := Sample.services (Ok []) (fun _ => Ok assignments) (Ok []) 0
             (Sample.text_reply "Eleven assignments, in short.") in
  let calls := [ mk_tool_call "get_assignments" "{}" ] in
  let s := @Sample.fresh S tt [] in
  exists answer s',
    @_handle_tool_calls Sample.lib S calls s = (Ok answer, s')
    /\ system_prompt s' = DEFAULT_SYSTEM_PROMPT
    /\ @last_event S s' =
         Some (ChatCompletion
                 (system_turn (DEFAULT_SYSTEM_PROMPT @@ concise_suffix)
                  :: context s') None).
Proof.
  intros assignments S calls s.
  destruct (@_handle_tool_calls Sample.lib S calls s) as [[answer|e] s'] eqn:Hrun;
    [| vm_compute in Hrun; discriminate].
  exists answer, s'. split; [reflexivity |].
  destruct (@concise_prompt_for_large_assignment_list Sample.lib S calls s)
    as [Hprompt Hlast].
  rewrite Hrun in Hprompt. split; [exact Hprompt |].
  exact (Hlast answer s' Hrun).
Defined.

Lemma list_assignments_reduced_and_truncated_witness :
  let twenty :=
    map (fun i => Sample.assignment (Z.of_nat i) "Homework" "2024-03-01T00:00:00Z")
      (seq 1 20) in
  let S := Sample.services (Ok []) (fun _ => Ok twenty) (Ok []) 0
             (Sample.text_reply "Twenty assignments.") in
  let s := @Sample.fresh S tt [] in
  let shaped := map simplify_assignment (firstn 15 twenty) in
  let run := @_handle_tool_calls Sample.lib S [ mk_tool_call "get_assignments" "{}" ] s in
  length twenty = 20%nat
  /\ context (snd run) =
       [ mk_turn "function" (Some "get_assignments")
           ("Assignments: " @@ Sample.json_dumps (JList (map JDict shaped))) ]
  /\ length shaped = Nat.min 15 (length twenty)
  /\ (length shaped <= 15)%nat.
Proof.
  intros twenty S s shaped run.
  destruct (@list_assignments_reduced_and_truncated Sample.lib S "{}" [] s twenty tt
              eq_refl eq_refl)
    as (_ & _ & Hctx & _ & Hlen & Hle & _).
  split; [reflexivity |]. split; [exact Hctx |]. split; [exact Hlen | exact Hle].
Defined.

(** C10, as first stated, fails.  A cycle of [get_courses] followed by a
    call of a name outside the catalog is not the cycle without that call:
    the courses result is filed under the unknown name.  And when the
    arguments of the unknown call do not decode, the cycle does not continue:
    the calls after it are not attempted. *)
Lemma unknown_tool_leaves_a_mark :
  let S := Sample.services (Ok [ Sample.course 101 "Biology" ]) (fun _ => Ok [])
             (Ok [ ("name", JStr "Ada") ]) 0 (Sample.text_reply "Here you are.") in
  let s := @Sample.fresh S tt [] in
  let known := mk_tool_call "get_courses" "{}" in
  let cycle := @_handle_tool_calls Sample.lib S in
  map name (context (snd (cycle [ known; mk_tool_call "lookup_grades" "{}" ] s)))
    = [ Some "lookup_grades" ]
  /\ map name (context (snd (cycle [ known ] s))) = [ Some "get_courses" ]
  /\ cycle [ known; mk_tool_call "lookup_grades" "{}" ] s <> cycle [ known ] s
  /\ fst (cycle [ mk_tool_call "lookup_grades" "{"; known ] s)
       = Err Sample.unterminated_object
  /\ trace (snd (cycle [ mk_tool_call "lookup_grades" "{"; known ] s)) = [].
Proof.
  vm_compute. do 2 (split; [reflexivity |]). split; [discriminate |].
  split; reflexivity.
Qed.

Lemma unknown_tool_falls_through_witness :
  let S := Sample.services (Ok [ Sample.course 101 "Biology" ]) (fun _ => Ok [])
             (Ok [ ("name", JStr "Ada") ]) 0 (Sample.text_reply "Here you are.") in
  let unknown := mk_tool_call "lookup_grades" "{}" in
  let pre := [ mk_tool_call "get_courses" "{}" ] in
  let post := [ mk_tool_call "get_user_profile" "{}" ] in
  (forall l s,
     @handle_tool_call Sample.lib S l unknown s =
       (Ok (mk_locals (Some "lookup_grades") (results l) (errors l) (large_response l)),
        s))
  /\ forall s, @_handle_tool_calls Sample.lib S (pre ++ unknown :: post) s
               = @_handle_tool_calls Sample.lib S (pre ++ post) s.
Proof.
  intros S unknown pre post.
  destruct (@unknown_tool_falls_through Sample.lib S pre post unknown (JDict []))
    as [Hturn Hcycle].
  - cbv [tools In tc_name unknown]. intuition discriminate.
  - reflexivity.
  - split; [exact Hturn | apply Hcycle; discriminate].
Defined.

(** * Further properties *)

(** ** The filters of the adapter *)

Section FilterFacts.
Context `{PyLib}.

Lemma filter_loop_subsequence {A : Type} (f : A -> result bool) (l r : list A) :
  filter_loop f l = Ok r -> subsequence r l.
Proof.
  revert r; induction l as [|x l IH]; intros r; cbn [filter_loop].
  - intros [= <-]. constructor.
  - destruct (f x) as [b|e]; [| discriminate].
    destruct (filter_loop f l) as [r0|e]; [| discriminate].
    intros [= <-]. destruct b; constructor; now apply IH.
Qed.

Lemma filter_loop_kept_true {A : Type} (f : A -> result bool) (l r : list A) :
  filter_loop f l = Ok r -> forall a, In a r -> f a = Ok true.
Proof.
  revert r; induction l as [|x l IH]; intros r; cbn [filter_loop].
  - intros [= <-] a [].
  - destruct (f x) as [b|e] eqn:Ex; [| discriminate].
    destruct (filter_loop f l) as [r0|e]; [| discriminate].
    intros [= <-] a Ha. destruct b.
    + destruct Ha as [<- | Ha]; [exact Ex | now apply (IH r0)].
    + now apply (IH r0).
Qed.

Lemma skipped_false (a : dict) :
  skipped a = false ->
  truthy (get a "due_at") = true
  /\ truthy (get_default a "submitted" (JBool false)) = false.
Proof.
  unfold skipped. intros Hs. apply orb_false_iff in Hs as [H1 H2].
  apply negb_false_iff in H1. auto.
Qed.

Lemma upcoming_keeps_true (now cutoff : datetime) (a : dict) :
  upcoming_keeps now cutoff a = Ok true ->
  skipped a = false
  /\ exists due_date,
       parse_due a = Some due_date
       /\ dt_lt now due_date = Ok true /\ dt_le due_date cutoff = Ok true.
Proof.
  unfold upcoming_keeps. destruct (skipped a); [discriminate |].
  destruct (parse_due a) as [due|]; [| discriminate].
  destruct (dt_lt now due) as [[|]|e] eqn:E; try discriminate.
  intros Hle. split; [reflexivity |]. exists due. auto.
Qed.

Lemma late_keeps_true (now : datetime) (a : dict) :
  late_keeps now a = Ok true ->
  skipped a = false
  /\ exists due_date, parse_due a = Some due_date /\ dt_lt due_date now = Ok true.
Proof.
  unfold late_keeps. destruct (skipped a); [discriminate |].
  destruct (parse_due a) as [due|]; [| discriminate].
  intros Hlt. split; [reflexivity |]. exists due. auto.
Qed.

(** X1.  Whenever the two filters return, what each returns is the fetched
    list with some assignments left out and the order kept, and no
    assignment it returns lacks a due date or is marked submitted. *)
Theorem filters_keep_order_and_skip_submitted (now days : Z)
  (l upcoming late : list dict) :
  upcoming_of now days l = Ok upcoming ->
  late_of now l = Ok late ->
  subsequence upcoming l
  /\ subsequence late l
  /\ forall a,
       In a upcoming \/ In a late ->
       truthy (get a "due_at") = true
       /\ truthy (get_default a "submitted" (JBool false)) = false
       /\ parse_due a <> None.
Proof.
  unfold upcoming_of, late_of. intros Hu Hl.
  split; [eapply filter_loop_subsequence; eassumption |].
  split; [eapply filter_loop_subsequence; eassumption |].
  intros a [Ha | Ha].
  - apply (filter_loop_kept_true _ _ _ Hu) in Ha.
    apply upcoming_keeps_true in Ha as (Hs & due & Hp & _).
    apply skipped_false in Hs as [H1 H2]. rewrite Hp. repeat split; auto; discriminate.
  - apply (filter_loop_kept_true _ _ _ Hl) in Ha.
    apply late_keeps_true in Ha as (Hs & due & Hp & _).
    apply skipped_false in Hs as [H1 H2]. rewrite Hp. repeat split; auto; discriminate.
Qed.

(** X2.  As long as the clock has not run backwards between the two
    readings, no assignment is both among the late ones of the first reading
    and among the upcoming ones of the second, whatever the horizon. *)
Theorem late_and_upcoming_disjoint (now1 now2 days : Z)
  (l late upcoming : list dict) :
  now1 <= now2 ->
  late_of now1 l = Ok late ->
  upcoming_of now2 days l = Ok upcoming ->
  forall a, In a late -> ~ In a upcoming.
Proof.
  unfold upcoming_of, late_of. intros Hn Hl Hu a Hal Hau.
  apply (filter_loop_kept_true _ _ _ Hl) in Hal.
  apply (filter_loop_kept_true _ _ _ Hu) in Hau.
  apply late_keeps_true in Hal as (_ & due & Hp & Hlt).
  apply upcoming_keeps_true in Hau as (_ & due' & Hp' & Hlt' & _).
  rewrite Hp in Hp'. injection Hp' as <-.
  unfold dt_lt, naive in Hlt, Hlt'. cbn [dt_utcoffset dt_wall] in Hlt, Hlt'.
  destruct (dt_utcoffset due); [discriminate |].
  injection Hlt as Hlt. injection Hlt' as Hlt'.
  apply Z.ltb_lt in Hlt, Hlt'. lia.
Qed.

Lemma filter_loop_none {A : Type} (f : A -> result bool) (l r : list A) :
  (forall a, f a <> Ok true) -> filter_loop f l = Ok r -> r = [].
Proof.
  intros Hf. revert r; induction l as [|x l IH]; intros r; cbn [filter_loop].
  - now intros [= <-].
  - destruct (f x) as [b|e] eqn:Ex; [| discriminate].
    destruct (filter_loop f l) as [r0|e]; [| discriminate].
    intros [= <-]. destruct b; [now destruct (Hf x) |]. now apply IH.
Qed.

(** X3.  With a horizon of zero or fewer days the upcoming filter returns
    no assignment: when it returns, it returns the empty list. *)
Theorem no_upcoming_within_nonpositive_horizon (now days : Z) (l r : list dict) :
  days <= 0 -> upcoming_of now days l = Ok r -> r = [].
Proof.
  intros Hd. unfold upcoming_of. apply filter_loop_none.
  intros a Ha. apply upcoming_keeps_true in Ha as (_ & due & _ & Hlt & Hle).
  unfold dt_lt, dt_le, naive, add_days in Hlt, Hle.
  cbn [dt_utcoffset dt_wall] in Hlt, Hle.
  destruct (dt_utcoffset due); [discriminate |].
  injection Hlt as Hlt. injection Hle as Hle.
  apply Z.ltb_lt in Hlt. apply Z.leb_le in Hle.
  unfold microseconds_per_day in Hle. nia.
Qed.

End FilterFacts.

Lemma filters_keep_order_and_skip_submitted_witness :
  let l := [ Sample.assignment 1 "Essay" "2024-02-05T09:00:00";
             Sample.assignment 2 "Lab" "2024-02-12T09:00:00";
             Sample.assignment 3 "Old quiz" "2024-01-15T09:00:00" ] in
  subsequence [ Sample.assignment 1 "Essay" "2024-02-05T09:00:00";
                Sample.assignment 2 "Lab" "2024-02-12T09:00:00" ] l
  /\ subsequence [ Sample.assignment 3 "Old quiz" "2024-01-15T09:00:00" ] l.
Proof.
  intros l.
  destruct (@filters_keep_order_and_skip_submitted Sample.lib
              Sample.noon_2024_02_01 14 l
              [ Sample.assignment 1 "Essay" "2024-02-05T09:00:00";
                Sample.assignment 2 "Lab" "2024-02-12T09:00:00" ]
              [ Sample.assignment 3 "Old quiz" "2024-01-15T09:00:00" ])
    as (H1 & H2 & _).
  - vm_compute. reflexivity.
  - vm_compute. reflexivity.
  - split; assumption.
Defined.

Lemma late_and_upcoming_disjoint_witness :
  let l := [ Sample.assignment 1 "Essay" "2024-02-05T09:00:00";
             Sample.assignment 3 "Old quiz" "2024-01-15T09:00:00" ] in
  @late_of Sample.lib Sample.noon_2024_02_01 l
    = Ok [ Sample.assignment 3 "Old quiz" "2024-01-15T09:00:00" ]
  /\ @upcoming_of Sample.lib (Sample.noon_2024_02_01 + 1) 14 l
      = Ok [ Sample.assignment 1 "Essay" "2024-02-05T09:00:00" ]
  /\ ~ In (Sample.assignment 3 "Old quiz" "2024-01-15T09:00:00")
         [ Sample.assignment 1 "Essay" "2024-02-05T09:00:00" ].
Proof.
  intros l.
  split; [vm_compute; reflexivity |]. split; [vm_compute; reflexivity |].
  apply (@late_and_upcoming_disjoint Sample.lib Sample.noon_2024_02_01
           (Sample.noon_2024_02_01 + 1) 14 l
           [ Sample.assignment 3 "Old quiz" "2024-01-15T09:00:00" ]
           [ Sample.assignment 1 "Essay" "2024-02-05T09:00:00" ]).
  - lia.
  - vm_compute. reflexivity.
  - vm_compute. reflexivity.
  - left. reflexivity.
Defined.

Lemma no_upcoming_within_nonpositive_horizon_witness :
  @upcoming_of Sample.lib Sample.noon_2024_02_01 0
    [ Sample.assignment 1 "Essay" "2024-02-05T09:00:00" ] = Ok []
  /\ ([] : list dict) = [].
Proof.
  split; [vm_compute; reflexivity |].
  apply (@no_upcoming_within_nonpositive_horizon Sample.lib
           Sample.noon_2024_02_01 0
           [ Sample.assignment 1 "Essay" "2024-02-05T09:00:00" ] []).
  - lia.
  - vm_compute. reflexivity.
Defined.

(** ** The sort of the summary *)

Lemma leb_refl (s : string) : String.leb s s = true.
Proof. destruct (String.leb_total s s); assumption. Qed.

Lemma insert_by_filter {A : Type} (key : A -> string) (k : string) (x : A)
  (l : list A) :
  filter (fun y => String.eqb (key y) k) (insert_by key x l) =
  filter (fun y => String.eqb (key y) k) (x :: l).
Proof.
  induction l as [|y l IH]; cbn [insert_by]; [reflexivity |].
  destruct (String.leb (key x) (key y)) eqn:E; [reflexivity |].
  assert (Hne : key x <> key y).
  { intros Heq. rewrite Heq, leb_refl in E. discriminate. }
  cbn [filter] in *.
  destruct (String.eqb_spec (key y) k) as [Hy|Hy];
    destruct (String.eqb_spec (key x) k) as [Hx|Hx];
    try congruence; try (rewrite IH; reflexivity).
Qed.

Lemma sort_by_filter {A : Type} (key : A -> string) (k : string) (l : list A) :
  filter (fun y => String.eqb (key y) k) (sort_by key l) =
  filter (fun y => String.eqb (key y) k) l.
Proof.
  unfold sort_by. induction l as [|x l IH]; cbn [fold_right]; [reflexivity |].
  rewrite insert_by_filter. cbn [filter]. now rewrite IH.
Qed.

(** X4.  When the sort of a summary list returns, the list it gives is
    ascending by the due-date string, holds every entry exactly as often as
    before, and keeps entries of equal due date in the order they had. *)
Theorem due_date_sort_is_stable (l r : list dict) :
  sort_by_due_date l = Ok r ->
  sorted_by_due_date r
  /\ Permutation l r
  /\ forall k,
       filter (fun x => String.eqb (key_text x) k) r =
       filter (fun x => String.eqb (key_text x) k) l.
Proof.
  unfold sort_by_due_date. destruct (forallb _ l); [| discriminate].
  intros [= <-]. split; [apply sort_by_sorted |].
  split; [apply sort_by_perm | intros k; apply sort_by_filter].
Qed.

Lemma due_date_sort_is_stable_witness :
  let e1 := summary_entry (JStr "Biology") (JInt 101)
              (Sample.assignment 1 "Essay" "2024-03-01T00:00:00") in
  let e2 := summary_entry (JStr "Biology") (JInt 101)
              (Sample.assignment 2 "Lab" "2024-01-01T00:00:00") in
  let e3 := summary_entry (JStr "Chemistry") (JInt 102)
              (Sample.assignment 3 "Quiz" "2024-03-01T00:00:00") in
  sorted_by_due_date [ e2; e1; e3 ]
  /\ Permutation [ e1; e2; e3 ] [ e2; e1; e3 ].
Proof.
  intros e1 e2 e3.
  destruct (due_date_sort_is_stable [ e1; e2; e3 ] [ e2; e1; e3 ]) as (H1 & H2 & _).
  - vm_compute. reflexivity.
  - split; assumption.
Defined.

(** ** The request envelope *)

Section EnvelopeFacts.
Context `{PyLib}.

Lemma envelope_payload (response_json v : json) :
  envelope response_json = Ok v <->
  exists d,
    response_json = JDict d
    /\ truthy (get_default d "success" (JBool false)) = true
    /\ v = get_default d "data" (JDict []).
Proof.
  unfold envelope. split.
  - destruct response_json as [| | | | |d]; try discriminate.
    destruct (truthy (get_default d "success" (JBool false))) eqn:E; [| discriminate].
    intros [= <-]. exists d. auto.
  - intros (d & -> & E & ->). now rewrite E.
Qed.

Lemma read_response_payload (status : Z) (text : string) (v : json) :
  read_response status text = Ok v <->
  status = 200
  /\ exists d,
       json_loads text = Ok (JDict d)
       /\ truthy (get_default d "success" (JBool false)) = true
       /\ v = get_default d "data" (JDict []).
Proof.
  unfold read_response. split.
  - destruct (Z.eqb_spec status 200) as [->|]; [| discriminate].
    destruct (json_loads text) as [j|e]; [| discriminate].
    intros Hv. apply envelope_payload in Hv as (d & -> & E & ->). eauto.
  - intros (-> & d & Hd & E & ->). cbn. rewrite Hd.
    apply envelope_payload. eauto.
Qed.

Lemma read_delete_response_payload (status : Z) (text : string) (v : json) :
  read_delete_response status text = Ok v <->
  status = 200
  /\ ((exists d,
         json_loads text = Ok (JDict d)
         /\ truthy (get_default d "success" (JBool false)) = true
         /\ v = get_default d "data" (JDict []))
      \/ ((exists e, json_loads text = Err e)
          /\ v = JDict [ ("status", JStr "success") ])).
Proof.
  unfold read_delete_response. split.
  - destruct (Z.eqb_spec status 200) as [->|]; [| discriminate].
    destruct (json_loads text) as [j|e].
    + intros Hv. apply envelope_payload in Hv as (d & -> & E & ->). eauto 6.
    + intros [= <-]. split; [reflexivity |]. right. eauto.
  - intros (-> & [(d & Hd & E & ->) | ((e & He) & ->)]); cbn.
    + rewrite Hd. apply envelope_payload. eauto.
    + now rewrite He.
Qed.

(** X5.  [_make_request] with one of its four methods returns a payload
    exactly when the status is 200 and the body is an envelope whose success
    flag is truthy (the payload is then its data, or the empty object when
    there is none), or when the method is [DELETE], the status is 200 and the
    body does not decode (the payload is then a fixed success object); in
    every other case it raises.  With any other method it returns [None]
    whatever the outcome of the call. *)
Theorem payload_only_from_successful_envelope (method : string)
  (outcome : result (Z * string)) (v : json) :
  (In method [ "GET"; "POST"; "PUT"; "DELETE" ] ->
   (_make_request method outcome = Ok v <->
    exists response_text,
      outcome = Ok (200, response_text)
      /\ ((exists d,
             json_loads response_text = Ok (JDict d)
             /\ truthy (get_default d "success" (JBool false)) = true
             /\ v = get_default d "data" (JDict []))
          \/ (method = "DELETE"
              /\ (exists e, json_loads response_text = Err e)
              /\ v = JDict [ ("status", JStr "success") ]))))
  /\ (~ In method [ "GET"; "POST"; "PUT"; "DELETE" ] ->
      _make_request method outcome = Ok JNull).
Proof.
  split.
  - intros Hin.
    assert (Hplain : method <> "DELETE" ->
              (match outcome with
               | Ok (status, text) => read_response status text
               | Err e =>
                   Err (Exn CanvasError
                          ("Network error when connecting to Canvas API: " @@ exn_str e))
               end = Ok v <->
               exists response_text,
                 outcome = Ok (200, response_text)
                 /\ ((exists d,
                        json_loads response_text = Ok (JDict d)
                        /\ truthy (get_default d "success" (JBool false)) = true
                        /\ v = get_default d "data" (JDict []))
                     \/ (method = "DELETE"
                         /\ (exists e, json_loads response_text = Err e)
                         /\ v = JDict [ ("status", JStr "success") ])))).
    { intros Hnd. destruct outcome as [[status text]|e]; split.
      - intros Hv. apply read_response_payload in Hv as (-> & Hd). eauto.
      - intros (text' & [= -> ->] & [Hd | (Hm & _)]); [| congruence].
        apply read_response_payload. auto.
      - discriminate.
      - intros (text' & Habs & _). discriminate. }
    cbn in Hin. destruct Hin as [<- | [<- | [<- | [<- | []]]]];
      try (apply Hplain; discriminate).
    cbn. destruct outcome as [[status text]|e]; split.
    + intros Hv. apply read_delete_response_payload in Hv as (-> & Hd).
      exists text. split; [reflexivity |].
      destruct Hd as [Hd | (He & ->)]; [left; exact Hd | right; auto].
    + intros (text' & [= -> ->] & Hd). apply read_delete_response_payload.
      split; [reflexivity |]. destruct Hd as [Hd | (_ & He & ->)]; auto.
    + discriminate.
    + intros (text' & Habs & _). discriminate.
  - intros Hn. unfold _make_request.
    repeat match goal with
           | |- context [if String.eqb method ?t then _ else _] =>
               destruct (String.eqb_spec method t) as [->|_];
               [exfalso; apply Hn; simpl; tauto |]
           end.
    reflexivity.
Qed.

End EnvelopeFacts.

Lemma payload_only_from_successful_envelope_witness :
  @_make_request Wire.lib "GET" (Ok (200, Wire.success_text)) = Ok (JList [])
  /\ @_make_request Wire.lib "DELETE" (Ok (200, "deleted"))
     = Ok (JDict [ ("status", JStr "success") ])
  /\ @_make_request Wire.lib "PATCH" (Ok (200, Wire.success_text)) = Ok JNull.
Proof.
  destruct (@payload_only_from_successful_envelope Wire.lib "GET"
              (Ok (200, Wire.success_text)) (JList [])) as [Hget _].
  destruct (@payload_only_from_successful_envelope Wire.lib "DELETE"
              (Ok (200, "deleted")) (JDict [ ("status", JStr "success") ]))
    as [Hdel _].
  destruct (@payload_only_from_successful_envelope Wire.lib "PATCH"
              (Ok (200, Wire.success_text)) JNull) as [_ Hother].
  split; [| split].
  - apply Hget; [simpl; tauto |].
    exists Wire.success_text. split; [reflexivity |]. left.
    exists [ ("success", JBool true); ("data", JList []) ].
    repeat split.
  - apply Hdel; [simpl; tauto |].
    exists "deleted". split; [reflexivity |]. right.
    split; [reflexivity |]. split; [| reflexivity].
    eexists. vm_compute. reflexivity.
  - apply Hother. cbn. intuition discriminate.
Defined.

(** ** The details of an assignment *)

Section DetailFacts.
Context `{PyLib}.

Lemma py_in_online_quiz_truthy (v : json) :
  py_in "online_quiz" v = Ok true -> truthy v = true.
Proof.
  destruct v as [| | |s|l|d]; cbn [py_in truthy]; try discriminate.
  - destruct s; [vm_compute; discriminate | reflexivity].
  - destruct l; [discriminate | reflexivity].
  - destruct d; [discriminate | reflexivity].
Qed.

(** X6.  The details that [get_assignment_details] builds pass the
    identifying fields of the fetched assignment through unchanged, always
    carry a list of files, and say that a submission is required exactly when
    the submission types are truthy; the quiz mark, when present, is [True]
    and comes with a required submission, and a formatted due date is present
    only for a due date that is truthy and parses. *)
Theorem details_keep_fields_and_flag_quizzes (assignment_data details : dict) :
  assignment_details_of assignment_data = Ok details ->
  (forall k, In k [ "id"; "name"; "due_at"; "points_possible"; "unlock_at"; "lock_at" ] ->
             get details k = get assignment_data k)
  /\ (exists files, get details "files" = JList files)
  /\ get details "requires_submission"
     = JBool (truthy (get_default assignment_data "submission_types" (JList [])))
  /\ (dict_lookup "is_quiz" details = None
      \/ (dict_lookup "is_quiz" details = Some (JBool true)
          /\ get details "requires_submission" = JBool true))
  /\ (dict_lookup "formatted_due_date" details <> None ->
      truthy (get assignment_data "due_at") = true
      /\ parse_due assignment_data <> None).
Proof.
  unfold assignment_details_of.
  destruct (scrape_files _) as [files|e]; [| discriminate].
  destruct (py_in "online_quiz" _) as [is_quiz|e] eqn:Hq; [| discriminate].
  intros [= <-].
  assert (Hthird : forall (a b c : json) (tail : dict),
             get (("id", a) :: ("name", b) :: ("due_at", c) :: tail) "due_at" = c)
    by reflexivity.
  unfold parse_due.
  destruct is_quiz.
  - apply py_in_online_quiz_truthy in Hq. rewrite Hq.
    cbn [app]. rewrite !Hthird.
    destruct (truthy (get assignment_data "due_at")) eqn:Ht;
      [destruct (match get assignment_data "due_at" with
                 | JStr s => fromisoformat (replace_Z s)
                 | _ => None
                 end) eqn:Hp |];
      (split; [intros k Hk; cbn in Hk;
               repeat (destruct Hk as [<- | Hk]; [reflexivity |]); destruct Hk |]);
      (split; [eexists; reflexivity |]);
      (split; [reflexivity |]);
      (split; [right; split; reflexivity |]);
      cbn; intros Hf; try (exfalso; apply Hf; reflexivity);
      split; [reflexivity | discriminate].
  - cbn [app]. rewrite !Hthird.
    destruct (truthy (get assignment_data "due_at")) eqn:Ht;
      [destruct (match get assignment_data "due_at" with
                 | JStr s => fromisoformat (replace_Z s)
                 | _ => None
                 end) eqn:Hp |];
      (split; [intros k Hk; cbn in Hk;
               repeat (destruct Hk as [<- | Hk]; [reflexivity |]); destruct Hk |]);
      (split; [eexists; reflexivity |]);
      (split; [reflexivity |]);
      (split; [left; reflexivity |]);
      cbn; intros Hf; try (exfalso; apply Hf; reflexivity);
      split; [reflexivity | discriminate].
Qed.

(** X7.  For an assignment whose description is text, [None] or missing
    and whose submission types are a list or missing, the details are built
    without an exception; a submission-types entry that is present and
    [None] makes the operation raise [TypeError]. *)
Theorem details_of_well_typed_assignment (assignment_data : dict) :
  match get_default assignment_data "description" (JStr "") with
  | JStr _ | JNull => True
  | _ => False
  end ->
  (match get_default assignment_data "submission_types" (JList []) with
   | JList _ => True
   | _ => False
   end ->
   exists details, assignment_details_of assignment_data = Ok details)
  /\ (dict_lookup "submission_types" assignment_data = Some JNull ->
      exists msg, assignment_details_of assignment_data = Err (Exn TypeError msg)).
Proof.
  intros Hd. unfold assignment_details_of.
  assert (Hs : exists files,
             scrape_files (get_default assignment_data "description" (JStr ""))
             = Ok files).
  { unfold scrape_files.
    destruct (get_default assignment_data "description" (JStr ""))
      as [| | |s| |]; try contradiction.
    - eexists; reflexivity.
    - destruct (truthy (JStr s)); [| eexists; reflexivity].
      cbn [py_in]. destruct (contains "<a" s); eexists; reflexivity. }
  destruct Hs as (files & ->). split.
  - intros Ht.
    destruct (get_default assignment_data "submission_types" (JList []))
      as [| | | |l|]; try contradiction.
    cbn [py_in]. eexists. reflexivity.
  - intros Hn. unfold get_default at 1 2 3. rewrite Hn.
    cbn [py_in]. eexists. reflexivity.
Qed.

End DetailFacts.

Lemma details_keep_fields_and_flag_quizzes_witness :
  let data := [ ("id", JInt 7); ("name", JStr "Quiz 1");
                ("due_at", JStr "2024-03-01T10:00:00");
                ("submission_types", JList [ JStr "online_quiz" ]) ] in
  exists details,
    @assignment_details_of Sample.lib data = Ok details
    /\ get details "id" = JInt 7
    /\ get details "requires_submission" = JBool true.
Proof.
  intros data.
  destruct (@assignment_details_of Sample.lib data) as [details|e] eqn:Hd;
    [| vm_compute in Hd; discriminate].
  exists details. split; [reflexivity |].
  destruct (@details_keep_fields_and_flag_quizzes Sample.lib data details Hd)
    as (Hk & _ & Hr & _).
  split.
  - rewrite (Hk "id"); [reflexivity | simpl; tauto].
  - rewrite Hr. reflexivity.
Defined.

Lemma details_of_well_typed_assignment_witness :
  let data := [ ("id", JInt 7); ("name", JStr "Essay");
                ("description", JStr "Write two pages.");
                ("submission_types", JList [ JStr "online_upload" ]) ] in
  exists details, @assignment_details_of Sample.lib data = Ok details.
Proof.
  intros data.
  destruct (@details_of_well_typed_assignment Sample.lib data) as [Hok _].
  - exact I.
  - apply Hok. exact I.
Defined.

(** ** One exchange *)

Section Exchange.
Context `{PyLib} `{Services}.

(** What [process_message] does, step by step. *)
Lemma process_message_run (message : string) (s : state) :
  process_message message s =
    match message_tool_calls (first_response s message) with
    | [] =>
        (Ok (message_content (first_response s message)),
         with_assistant (after_first_request s message)
           (message_content (first_response s message)))
    | tool_calls =>
        match _handle_tool_calls tool_calls (after_first_request s message) with
        | (Ok answer, s3) => (Ok answer, with_assistant s3 answer)
        | (Err e, s3) => (Ok (tool_failure_text e), with_assistant s3 (tool_failure_text e))
        end
    end.
Proof.
  unfold process_message, try_except. unfold bind at 1.
  rewrite add_user_message_run.
  cbv beta iota delta [bind get_system_prompt get_context generate_with_tools ask ret].
  cbn [context system_prompt world trace].
  unfold first_response, after_first_request, first_messages, history_with.
  destruct (chat_completions_create _ (Some tools) (world s)) as [[response|e] w];
    cbn [fst snd message_tool_calls message_content].
  - destruct (message_tool_calls response) as [|tc tcs]; [reflexivity |].
    unfold try_except, context_append.
    destruct (_handle_tool_calls (tc :: tcs) _) as [[answer|e] s3]; reflexivity.
  - reflexivity.
Qed.

Lemma history_with_ends_with_user (history : list turn) (message : string) :
  exists front,
    history_with history message = front ++ [ mk_turn "user" None message ].
Proof.
  unfold history_with.
  exists (skipn (length (history ++ [ mk_turn "user" None message ]) - MAX_CONTEXT_LENGTH)
            history).
  apply skipn_app_last. rewrite length_app. cbn [length].
  unfold MAX_CONTEXT_LENGTH. lia.
Qed.

(** A cycle only appends to the history, and never writes the prompt. *)
Lemma cycle_extends_history (tool_calls : list tool_call) (s : state) :
  exists extra,
    context (snd (_handle_tool_calls tool_calls s)) = context s ++ extra
    /\ system_prompt (snd (_handle_tool_calls tool_calls s)) = system_prompt s.
Proof.
  destruct (tool_loop initial_locals tool_calls s) as [[l|e] s1] eqn:Hl.
  - pose proof (handle_tool_calls_run _ _ _ _ Hl) as Hrun. cbv zeta in Hrun.
    rewrite Hrun. cbn [snd context system_prompt]. eexists. split; reflexivity.
  - rewrite (handle_tool_calls_fail _ _ _ _ Hl). cbn [snd].
    destruct (frame_tool_loop tool_calls initial_locals s) as [Hc Hp].
    rewrite Hl in Hc, Hp. cbn [snd] in Hc, Hp.
    exists []. now rewrite app_nil_r.
Qed.

(** X8.  [process_message] never raises.  The text it returns is the
    content of the assistant turn it leaves last in the history; the user
    turn of the message is in the history it leaves, before that turn; and
    the stored system prompt is the one it found. *)
Theorem process_message_answers_and_records (message : string) (s : state) :
  exists text s',
    process_message message s = (Ok text, s')
    /\ (exists before between,
          context s' = before ++ mk_turn "user" None message :: between
                       ++ [ mk_turn "assistant" None text ])
    /\ system_prompt s' = system_prompt s.
Proof.
  rewrite process_message_run.
  destruct (history_with_ends_with_user (context s) message) as (front & Hfront).
  destruct (message_tool_calls (first_response s message)) as [|tc tcs].
  - do 2 eexists. split; [reflexivity |]. split; [| reflexivity].
    exists front, []. cbn [with_assistant after_first_request context].
    rewrite Hfront, <- app_assoc. reflexivity.
  - destruct (cycle_extends_history (tc :: tcs) (after_first_request s message))
      as (extra & Hc & Hp).
    destruct (_handle_tool_calls (tc :: tcs) (after_first_request s message))
      as [[answer|e] s3]; cbn [snd] in Hc, Hp;
      do 2 eexists; (split; [reflexivity |]);
      (split; [| cbn [with_assistant system_prompt]; rewrite Hp; reflexivity]);
      exists front, extra; cbn [with_assistant context]; rewrite Hc;
      cbn [after_first_request context]; rewrite Hfront, <- !app_assoc; reflexivity.
Qed.

(** X9.  When the model answers without tool calls, or the provider call
    fails, the exchange asks nothing of the backend and makes exactly one
    request, which carries the tool catalog; the history becomes the cut
    history with the user turn, followed by the assistant turn, so it holds
    at most one turn more than the maximum; a failure of the provider is
    answered with the apology that quotes the exception. *)
Theorem plain_exchange (message : string) (s : state) :
  message_tool_calls (first_response s message) = [] ->
  let text := message_content (first_response s message) in
  let s' := snd (process_message message s) in
  fst (process_message message s) = Ok text
  /\ context s' = history_with (context s) message ++ [ mk_turn "assistant" None text ]
  /\ length (context s') = S (Nat.min (length (context s) + 1) MAX_CONTEXT_LENGTH)
  /\ trace s' = trace s ++ [ ChatCompletion (first_messages s message) (Some tools) ]
  /\ (forall e,
        fst (chat_completions_create (first_messages s message) (Some tools) (world s))
        = Err e -> text = apology e).
Proof.
  intros Hplain text s'. subst text s'. rewrite process_message_run, Hplain.
  cbn [fst snd with_assistant after_first_request context trace].
  split; [reflexivity |]. split; [reflexivity |]. split.
  { unfold history_with. rewrite length_app, length_skipn, length_app. cbn [length].
    unfold MAX_CONTEXT_LENGTH. lia. }
  split; [reflexivity |].
  intros e He. unfold first_response. now rewrite He.
Qed.

(** The failure of the provider leaves no tool call to handle. *)
Lemma provider_failure_is_plain (message : string) (s : state) (e : exn) :
  fst (chat_completions_create (first_messages s message) (Some tools) (world s)) = Err e ->
  message_tool_calls (first_response s message) = [].
Proof. intros He. unfold first_response. now rewrite He. Qed.



End Exchange.

(** ** The outcomes of a cycle *)


Ltac eval_eqb :=
  repeat match goal with
         | |- context [String.eqb ?a ?b] =>
             let v := eval vm_compute in (String.eqb a b) in
             change (String.eqb a b) with v
         end;
  cbv beta iota.

Section Outcomes.
Context `{PyLib} `{Services}.








End Outcomes.

(** ** A backend that answers nothing *)

Section BackendDown.
Context `{PyLib} `{Services}.
Hypothesis Hdown : backend_down.

Lemma make_request_list_down (ep : endpoint) (s : state) :
  exists e s', make_request_list ep s = (Err e, s').
Proof.
  unfold make_request_list, bind, ask, lift.
  destruct (proj1 Hdown ep (world s)) as (e & He).
  destruct (request_list ep (world s)) as [r w]. cbn [fst] in He. subst r.
  eauto.
Qed.

Lemma make_request_dict_down (ep : endpoint) (s : state) :
  exists e s', make_request_dict ep s = (Err e, s').
Proof.
  unfold make_request_dict, bind, ask, lift.
  destruct (proj2 Hdown ep (world s)) as (e & He).
  destruct (request_dict ep (world s)) as [r w]. cbn [fst] in He. subst r.
  eauto.
Qed.

Ltac fail_request :=
  match goal with
  | |- context [make_request_list ?ep ?s] =>
      let e := fresh "e" in let s' := fresh "s" in let E := fresh "E" in
      destruct (make_request_list_down ep s) as (e & s' & E); rewrite E
  | |- context [make_request_dict ?ep ?s] =>
      let e := fresh "e" in let s' := fresh "s" in let E := fresh "E" in
      destruct (make_request_dict_down ep s) as (e & s' & E); rewrite E
  end.

(** Every tool of the catalog starts with a request (after reading its
    arguments), so with the backend down each one ends in an exception. *)
Lemma dispatch_down (fn : string) (args : json) (s : state) :
  In fn tools ->
  exists e s', dispatch fn args [] false s = (Err e, s').
Proof.
  intros Hin. cbn in Hin.
  repeat (destruct Hin as [<- | Hin];
          [unfold dispatch; eval_eqb;
           unfold get_courses, get_course, get_assignments, get_user_profile,
             get_assignment_summary, get_upcoming_assignments,
             get_late_assignments, get_assignment_details,
             find_assignment_by_name, get_courses, get_assignments,
             get_assignment, args_get, args_get_default;
           destruct args; unfold bind, ret, raise;
           try fail_request; cbv beta iota; eauto |]).
  destruct Hin.
Qed.

End BackendDown.

Section BackendDownCycle.
Context `{PyLib} `{Services}.

Lemma tool_loop_down (tool_calls : list tool_call) (l0 : locals) (s : state) :
  backend_down ->
  all_decode tool_calls ->
  (forall tc, In tc tool_calls -> In (tc_name tc) tools) ->
  exists l s1 new_errors,
    tool_loop l0 tool_calls s = (Ok l, s1)
    /\ results l = results l0
    /\ large_response l = large_response l0
    /\ errors l = errors l0 ++ new_errors
    /\ length new_errors = length tool_calls
    /\ Forall (error_of tool_calls) new_errors.
Proof.
  intros Hdown. revert l0 s.
  induction tool_calls as [|tc rest IH]; intros l0 s Hdec Hreg; cbn [tool_loop].
  - exists l0, s, []. rewrite app_nil_r. repeat split; constructor.
  - destruct (Hdec tc (or_introl eq_refl)) as (args & Hargs).
    destruct (dispatch_down Hdown (tc_name tc) args s (Hreg tc (or_introl eq_refl)))
      as (e & s1 & Hd).
    assert (Hturn : handle_tool_call l0 tc s =
              (Ok (mk_locals (Some (tc_name tc)) (results l0)
                     (errors l0 ++ [ "Error executing " @@ tc_name tc @@ ": "
                                      @@ exn_str e ])
                     (large_response l0)), s1)).
    { unfold handle_tool_call. rewrite Hargs. unfold try_except, bind.
      rewrite dispatch_normal_form, Hd. reflexivity. }
    destruct (IH (mk_locals (Some (tc_name tc)) (results l0)
                    (errors l0 ++ [ "Error executing " @@ tc_name tc @@ ": "
                                     @@ exn_str e ])
                    (large_response l0)) s1
                (fun t Ht => Hdec t (or_intror Ht))
                (fun t Ht => Hreg t (or_intror Ht)))
      as (l & s2 & es & Hloop & Hres & Hlarge & Herrs & Hlen & Hall).
    unfold bind. rewrite Hturn.
    exists l, s2, (("Error executing " @@ tc_name tc @@ ": " @@ exn_str e) :: es).
    split; [exact Hloop |]. cbn [results errors large_response] in *.
    split; [exact Hres |]. split; [exact Hlarge |].
    split; [rewrite Herrs, <- app_assoc; reflexivity |].
    split; [cbn [length]; now rewrite Hlen |].
    constructor.
    + exists tc, e. split; [left; reflexivity | reflexivity].
    + revert Hall. apply Forall_impl. intros m (t & e' & Ht & ->).
      exists t, e'. split; [right; exact Ht | reflexivity].
Qed.

(** X12.  When the backend answers no request, a cycle of tool calls that
    name tools of the catalog (with arguments that decode) still ends with
    the final model call and returns its answer: the only turn it appends is
    the error report, which holds one error string for each tool call, and
    the final call is made with the stored prompt on the history that ends
    with that report. *)
Theorem backend_down_still_answers (tool_calls : list tool_call) (s : state) :
  backend_down ->
  all_decode tool_calls ->
  (forall tc, In tc tool_calls -> In (tc_name tc) tools) ->
  tool_calls <> [] ->
  exists answer s' errors,
    _handle_tool_calls tool_calls s = (Ok answer, s')
    /\ context s' =
         context s ++ [ mk_turn "function" (Some "error_report")
                          ("Errors encountered:" @@ nl @@ join nl errors) ]
    /\ length errors = length tool_calls
    /\ Forall (error_of tool_calls) errors
    /\ last_event s' =
         Some (ChatCompletion (system_turn (system_prompt s) :: context s') None).
Proof.
  intros Hdown Hdec Hreg Hne.
  destruct (tool_loop_down tool_calls initial_locals s Hdown Hdec Hreg)
    as (l & s1 & es & Hl & Hres & Hlarge & Herrs & Hlen & Hall).
  cbn [initial_locals results errors large_response app] in Hres, Hlarge, Herrs.
  pose proof (handle_tool_calls_run _ _ _ _ Hl) as Hrun. cbv zeta in Hrun.
  rewrite Hres, Hlarge, Herrs in Hrun.
  assert (Hrt : result_turns (function_name l) [] = [])
    by (destruct (function_name l); reflexivity).
  rewrite Hrt in Hrun. cbn [app] in Hrun.
  destruct es as [|e0 es].
  { destruct tool_calls; [congruence | discriminate]. }
  cbn [error_turns] in Hrun. rewrite Hrun.
  do 3 eexists. split; [reflexivity |]. cbn [context].
  split; [reflexivity |]. split; [exact Hlen |]. split; [exact Hall |].
  unfold last_event. cbn [trace]. rewrite map_app. cbn [map].
  now rewrite last_last.
Qed.



End BackendDownCycle.


Lemma backend_down_still_answers_witness :
  let calls := [ mk_tool_call "get_courses" "{}";
                 mk_tool_call "get_user_profile" "{}" ] in
  let S := Sample.services (Err Sample.down) (fun _ => Err Sample.down)
             (Err Sample.down) 0 (Sample.text_reply "Canvas is not answering.") in
  exists answer s' errors,
    @_handle_tool_calls Sample.lib S calls (@Sample.fresh S tt []) = (Ok answer, s')
    /\ context s' =
         [ mk_turn "function" (Some "error_report")
             ("Errors encountered:" @@ nl @@ join nl errors) ]
    /\ length errors = 2%nat.
Proof.
  intros calls S.
  destruct (@backend_down_still_answers Sample.lib S calls (@Sample.fresh S tt []))
    as (answer & s' & es & Hrun & Hctx & Hlen & _).
  - split; intros ep w; destruct ep; eexists; reflexivity.
  - intros tc [<- | [<- | []]]; eexists; reflexivity.
  - intros tc [<- | [<- | []]]; cbn; tauto.
  - discriminate.
  - exists answer, s', es. repeat split; assumption.
Defined.


(** ** The summary and its requests *)

Section SummaryRequests.
Context `{PyLib} `{Services}.

Lemma get_late_assignments_trace (course_id : json) (s s' : state) (r : list dict) :
  get_late_assignments course_id s = (Ok r, s') ->
  trace s' = trace s ++ [ CanvasGet (Assignments course_id); ClockRead ].
Proof.
  unfold get_late_assignments, get_assignments, make_request_list, datetime_now.
  cbv beta iota delta [bind ask lift].
  destruct (request_list (Assignments course_id) (world s)) as [[all|e] w];
    cbn [world trace]; [| discriminate].
  destruct (clock w) as [now w1]. cbn [trace].
  intros [= _ <-]. cbn [trace]. now rewrite <- app_assoc.
Qed.

Lemma get_upcoming_assignments_trace (course_id days : json) (s s' : state)
  (r : list dict) :
  get_upcoming_assignments course_id days s = (Ok r, s') ->
  trace s' = trace s ++ [ CanvasGet (Assignments course_id); ClockRead ].
Proof.
  unfold get_upcoming_assignments, get_assignments, make_request_list, datetime_now.
  cbv beta iota delta [bind ask lift raise].
  destruct (request_list (Assignments course_id) (world s)) as [[all|e] w];
    cbn [world trace]; [| discriminate].
  destruct (clock w) as [now w1]. cbn [trace].
  destruct (as_int days); [| discriminate].
  intros [= _ <-]. cbn [trace]. now rewrite <- app_assoc.
Qed.

Lemma summary_loop_trace (courses late_acc upcoming_acc : list dict)
  (s s' : state) (lists : list dict * list dict) :
  summary_loop courses late_acc upcoming_acc s = (Ok lists, s') ->
  trace s' = trace s ++ flat_map course_events courses.
Proof.
  revert late_acc upcoming_acc s.
  induction courses as [|c courses IH]; intros late_acc upcoming_acc s;
    cbn [summary_loop flat_map].
  - unfold ret. intros [= _ <-]. now rewrite app_nil_r.
  - unfold bind at 1.
    destruct (get_late_assignments (get c "id") s) as [[late|e] s1] eqn:El;
      [| discriminate].
    unfold bind at 1.
    destruct (get_upcoming_assignments (get c "id") (JInt 7) s1)
      as [[upcoming|e] s2] eqn:Eu; [| discriminate].
    intros Hrest. apply IH in Hrest.
    apply get_late_assignments_trace in El.
    apply get_upcoming_assignments_trace in Eu.
    rewrite Hrest, Eu, El. unfold course_events. cbn [app].
    rewrite <- !app_assoc. reflexivity.
Qed.

(** What [get_assignment_summary] does once the courses have been fetched,
    for a limit that is not negative. *)
Lemma get_assignment_summary_run (n : Z) (s : state) (courses : list dict)
  (w : World) :
  request_list Courses (world s) = (Ok courses, w) ->
  courses <> [] ->
  0 <= n ->
  get_assignment_summary (JInt n) s =
    match summary_loop (firstn (Z.to_nat n) courses) [] []
            (mk_state (context s) (system_prompt s) w (trace s ++ [ CanvasGet Courses ]))
    with
    | (Ok lists, s2) =>
        (Ok [ ("courses", JInt (Z.of_nat (length (firstn (Z.to_nat n) courses))));
              ("courses_checked",
                JInt (Z.of_nat (length (firstn (Z.to_nat n) courses))));
              ("late_assignments",
                JList (map JDict (sort_by key_text (fst lists))));
              ("upcoming_assignments",
                JList (map JDict (sort_by key_text (snd lists)))) ], s2)
    | (Err e, s2) => (Err e, s2)
    end.
Proof.
  intros Hreq Hne Hn.
  unfold get_assignment_summary, get_courses, make_request_list.
  cbv beta iota delta [bind ask lift]. rewrite Hreq.
  destruct courses as [|c courses]; [congruence |].
  cbn [as_int]. unfold slice_upto.
  destruct (Z.leb_spec 0 n) as [_ | Hneg]; [| lia].
  destruct (summary_loop (firstn (Z.to_nat n) (c :: courses)) [] [] _)
    as [[lists|e] s2] eqn:Hloop; [| reflexivity].
  destruct (summary_sorts_return _ _ _ _ Hloop) as [Hs1 Hs2].
  rewrite Hs1, Hs2. cbv beta iota delta [ret].
  destruct (Z.ltb_spec n (Z.of_nat (length (firstn (Z.to_nat n) (c :: courses)))))
    as [Hlt | _]; [| reflexivity].
  rewrite length_firstn in Hlt. lia.
Qed.

(** X14.  A summary that returns, for a limit [n] that is not negative,
    has asked for the list of courses once and then, for each of the first
    [n] courses in the order of that list and for no other, for its
    assignments twice, reading the clock after each fetch. *)
Theorem summary_requests_are_bounded (n : Z) (s s' : state)
  (courses : list dict) (w : World) (summary : dict) :
  request_list Courses (world s) = (Ok courses, w) ->
  courses <> [] ->
  0 <= n ->
  get_assignment_summary (JInt n) s = (Ok summary, s') ->
  trace s' =
    trace s ++ CanvasGet Courses
               :: flat_map course_events (firstn (Z.to_nat n) courses)
  /\ (length (trace s') <= length (trace s) + 1 + 4 * Z.to_nat n)%nat.
Proof.
  intros Hreq Hne Hn. rewrite (get_assignment_summary_run n s courses w Hreq Hne Hn).
  destruct (summary_loop _ [] [] _) as [[lists|e] s2] eqn:Hloop; [| discriminate].
  intros [= _ <-]. apply summary_loop_trace in Hloop. cbn [trace] in Hloop.
  rewrite Hloop, <- app_assoc. cbn [app]. split; [reflexivity |].
  rewrite !length_app. cbn [length].
  assert (Hfm : forall cs : list dict,
             length (flat_map course_events cs) = (4 * length cs)%nat).
  { induction cs as [|c cs IHc]; [reflexivity |].
    cbn [flat_map]. rewrite length_app, IHc. cbn [course_events length]. lia. }
  rewrite Hfm, length_firstn. lia.
Qed.

(** X15.  In a summary that returns for a limit [n] that is not negative,
    the count of courses and the count of courses checked are the same
    number, the smaller of [n] and the number of courses fetched, and both
    lists of the summary are lists of entries sorted by due date. *)
Theorem summary_counts_agree (n : Z) (s s' : state) (courses : list dict)
  (w : World) (summary : dict) :
  request_list Courses (world s) = (Ok courses, w) ->
  courses <> [] ->
  0 <= n ->
  get_assignment_summary (JInt n) s = (Ok summary, s') ->
  get summary "courses" = JInt (Z.min n (Z.of_nat (length courses)))
  /\ get summary "courses_checked" = get summary "courses"
  /\ keys summary =
       [ "courses"; "courses_checked"; "late_assignments"; "upcoming_assignments" ]
  /\ (exists late, get summary "late_assignments" = JList (map JDict late)
                   /\ sorted_by_due_date late)
  /\ (exists upcoming, get summary "upcoming_assignments" = JList (map JDict upcoming)
                       /\ sorted_by_due_date upcoming).
Proof.
  intros Hreq Hne Hn. rewrite (get_assignment_summary_run n s courses w Hreq Hne Hn).
  destruct (summary_loop _ [] [] _) as [[lists|e] s2]; [| discriminate].
  intros [= <- _]. split.
  { cbn. rewrite length_firstn. f_equal. lia. }
  split; [reflexivity |]. split; [reflexivity |].
  split; eexists; (split; [reflexivity | apply sort_by_sorted]).
Qed.

End SummaryRequests.

Lemma summary_requests_are_bounded_witness :
  let courses := [ Sample.course 101 "Biology"; Sample.course 102 "Chemistry";
                   Sample.course 103 "History" ] in
  let S := Sample.services (Ok courses)
             (fun _ => Ok [ Sample.assignment 1 "Essay" "2024-02-05T09:00:00" ])
             (Ok []) Sample.noon_2024_02_01 (Sample.text_reply "") in
  let run := @get_assignment_summary Sample.lib S (JInt 2) (@Sample.fresh S tt []) in
  trace (snd run) =
    [ CanvasGet Courses;
      CanvasGet (Assignments (JInt 101)); ClockRead;
      CanvasGet (Assignments (JInt 101)); ClockRead;
      CanvasGet (Assignments (JInt 102)); ClockRead;
      CanvasGet (Assignments (JInt 102)); ClockRead ].
Proof.
  intros courses S run.
  destruct run as [[summary|e] s'] eqn:Hrun; [| vm_compute in Hrun; discriminate].
  destruct (@summary_requests_are_bounded Sample.lib S 2 (@Sample.fresh S tt []) s'
              courses tt summary eq_refl) as [Htrace _].
  - discriminate.
  - lia.
  - exact Hrun.
  - cbn [snd]. rewrite Htrace. reflexivity.
Defined.

Lemma summary_counts_agree_witness :
  let courses := [ Sample.course 101 "Biology"; Sample.course 102 "Chemistry";
                   Sample.course 103 "History" ] in
  let S := Sample.services (Ok courses)
             (fun _ => Ok [ Sample.assignment 1 "Essay" "2024-02-05T09:00:00" ])
             (Ok []) Sample.noon_2024_02_01 (Sample.text_reply "") in
  exists summary,
    fst (@get_assignment_summary Sample.lib S (JInt 5) (@Sample.fresh S tt []))
      = Ok summary
    /\ get summary "courses" = JInt 3
    /\ get summary "courses_checked" = JInt 3.
Proof.
  intros courses S.
  destruct (@get_assignment_summary Sample.lib S (JInt 5) (@Sample.fresh S tt []))
    as [[summary|e] s'] eqn:Hrun; [| vm_compute in Hrun; discriminate].
  exists summary. split; [reflexivity |].
  destruct (@summary_counts_agree Sample.lib S 5 (@Sample.fresh S tt []) s'
              courses tt summary eq_refl) as (Hc & Hcc & _).
  - discriminate.
  - lia.
  - exact Hrun.
  - rewrite Hcc, Hc. split; reflexivity.
Defined.

(** ** The console *)

Section ConsoleFacts.
Context `{PyLib} `{Services}.

Lemma process_message_ok (message : string) (s : state) :
  exists text s',
    process_message message s = (Ok text, s')
    /\ system_prompt s' = system_prompt s.
Proof.
  rewrite process_message_run.
  destruct (message_tool_calls (first_response s message)) as [|tc tcs].
  - do 2 eexists. split; reflexivity.
  - destruct (cycle_extends_history (tc :: tcs) (after_first_request s message))
      as (extra & _ & Hp).
    destruct (_handle_tool_calls (tc :: tcs) (after_first_request s message))
      as [[answer|e] s3]; cbn [snd] in Hp;
      do 2 eexists; (split; [reflexivity | exact Hp]).
Qed.

(** One turn of the console: it never raises, it ends the loop exactly on
    [exit] and [quit], and it never writes the prompt. *)
Lemma console_turn_ok (line : string) (s : state) :
  exists out s',
    console_turn line s = (Ok (negb (is_exit line), out), s')
    /\ system_prompt s' = system_prompt s.
Proof.
  unfold console_turn, try_except, is_exit.
  destruct (String.eqb (lower line) "exit" || String.eqb (lower line) "quit");
    [do 2 eexists; split; reflexivity |].
  destruct (String.eqb (lower line) "reset");
    [do 2 eexists; split; reflexivity |].
  destruct (String.eqb (lower line) "help");
    [do 2 eexists; split; reflexivity |].
  unfold bind. destruct (process_message_ok line s) as (text & s' & -> & Hp).
  do 2 eexists. split; [reflexivity | exact Hp].
Qed.

Lemma console_ok (lines : list string) (s : state) :
  exists out s',
    console lines s = (Ok (existsb is_exit lines, out), s')
    /\ system_prompt s' = system_prompt s.
Proof.
  revert s. induction lines as [|line rest IH]; intros s; cbn [console existsb].
  - do 2 eexists. split; reflexivity.
  - unfold bind at 1.
    destruct (console_turn_ok line s) as (out & s1 & -> & Hp). cbn [fst snd].
    destruct (is_exit line); cbn [negb orb].
    + do 2 eexists. split; [reflexivity | exact Hp].
    + unfold bind. destruct (IH s1) as (out' & s2 & -> & Hp').
      do 2 eexists. split; [reflexivity | congruence].
Qed.

(** X16.  The lines typed after [exit] or [quit], in any letter case, are
    never read: the session is the one that ends with that line. *)
Theorem lines_after_exit_are_ignored (before after : list string)
  (line : string) (s : state) :
  is_exit line = true ->
  console (before ++ line :: after) s = console (before ++ [ line ]) s.
Proof.
  intros Hexit. revert s. induction before as [|l before IH]; intros s; cbn [app console].
  - unfold bind at 1 3. destruct (console_turn_ok line s) as (out & s1 & -> & _).
    rewrite Hexit. reflexivity.
  - unfold bind at 1 3. destruct (console_turn l s) as [[[goes out]|e] s1];
      [| reflexivity].
    cbn [fst snd]. destruct goes; [| reflexivity].
    unfold bind. now rewrite IH.
Qed.

(** X17.  [main_loop] ends with status 1 exactly when the key or the token
    is unset or empty, and then it has built no agent and printed which
    settings are missing.  Otherwise an agent is built, no line makes the
    process fail, the status is 0 as soon as a line is [exit] or [quit] and
    the process keeps waiting when there is none; the system prompt of the
    agent is the default one throughout. *)
Theorem exit_status_of_session (key token : option string) (lines : list string)
  (w : World) :
  let run := main_loop key token lines w in
  (missing_vars key token <> [] ->
   exit_status run = Some 1 /\ agent run = None
   /\ printed run = missing_report (missing_vars key token))
  /\ (missing_vars key token = [] ->
      exit_status run = (if existsb is_exit lines then Some 0 else None)
      /\ exists s, agent run = Some s /\ system_prompt s = DEFAULT_SYSTEM_PROMPT)
  /\ (missing_vars key token = [] <-> unset key = false /\ unset token = false).
Proof.
  cbv zeta. unfold main_loop. split; [| split].
  - destruct (missing_vars key token) as [|v vs]; [congruence |].
    intros _. cbn [exit_status agent printed]. auto.
  - intros ->. destruct (console_ok lines (new_agent w)) as (out & s' & -> & Hp).
    cbn [exit_status agent]. split; [reflexivity |]. exists s'. split; [reflexivity |].
    exact Hp.
  - unfold missing_vars. destruct (unset key), (unset token); cbn; split;
      try discriminate; try tauto; intros [? ?]; discriminate.
Qed.

(** X18.  After [reset], in any letter case, the next message that the
    model answers in plain text is handled from an empty history: the turn of
    the user and the turn of the assistant are the whole history, whatever it
    held before, and the reset itself asked nothing of the outside world. *)
Theorem reset_starts_over (command message : string) (s : state) :
  String.eqb (lower command) "reset" = true ->
  is_command message = false ->
  let cleared := mk_state [] (system_prompt s) (world s) (trace s) in
  message_tool_calls (first_response cleared message) = [] ->
  console_turn command s = (Ok (true, [ "Conversation history has been reset." ]), cleared)
  /\ context (snd (console [ command; message ] s)) =
       [ mk_turn "user" None message;
         mk_turn "assistant" None (message_content (first_response cleared message)) ].
Proof.
  intros Hreset Hmsg cleared Hplain.
  assert (Hturn : console_turn command s =
                    (Ok (true, [ "Conversation history has been reset." ]), cleared)).
  { unfold console_turn, try_except. apply String.eqb_eq in Hreset. rewrite Hreset.
    reflexivity. }
  split; [exact Hturn |].
  cbn [console]. unfold bind at 1. rewrite Hturn. cbn [fst snd].
  unfold bind at 1 2.
  assert (Hm : console_turn message cleared =
                 (Ok (true, [ "Processing..."; nl @@ "Canvas Assistant:";
                              message_content (first_response cleared message); "" ]),
                  with_assistant (after_first_request cleared message)
                    (message_content (first_response cleared message)))).
  { unfold console_turn, try_except. unfold is_command, is_exit in Hmsg.
    apply orb_false_iff in Hmsg as [Hmsg Hhelp].
    apply orb_false_iff in Hmsg as [Hexit Hres].
    rewrite Hexit, Hres, Hhelp. unfold bind.
    rewrite process_message_run, Hplain. reflexivity. }
  rewrite Hm. cbn [fst snd ret console]. reflexivity.
Qed.

End ConsoleFacts.

Lemma plain_exchange_witness :
  let S := Sample.services (Ok []) (fun _ => Ok []) (Ok []) 0
             (Sample.text_reply "Hello!") in
  let s := @Sample.fresh S tt (repeat (mk_turn "user" None "hi") 12) in
  let s' := snd (@process_message Sample.lib S "hello" s) in
  fst (@process_message Sample.lib S "hello" s) = Ok "Hello!"
  /\ length (context s') = 11%nat.
Proof.
  intros S s s'.
  destruct (@plain_exchange Sample.lib S "hello" s eq_refl) as (Hfst & _ & Hlen & _).
  split; [exact Hfst | exact Hlen].
Defined.


Lemma lines_after_exit_are_ignored_witness :
  let S := Sample.services (Ok []) (fun _ => Ok []) (Ok []) 0
             (Sample.text_reply "Hello!") in
  @console Sample.lib S ([ "hello" ] ++ "Quit" :: [ "what is due?" ])
    (@new_agent S tt)
  = @console Sample.lib S ([ "hello" ] ++ [ "Quit" ]) (@new_agent S tt).
Proof.
  intros S.
  apply (@lines_after_exit_are_ignored Sample.lib S [ "hello" ] [ "what is due?" ]
           "Quit" (@new_agent S tt)).
  reflexivity.
Defined.

Lemma exit_status_of_session_witness :
  let S := Sample.services (Ok []) (fun _ => Ok []) (Ok []) 0
             (Sample.text_reply "Hello!") in
  exit_status (@main_loop Sample.lib S (Some "sk-key") (Some "") [ "hello" ] tt)
    = Some 1
  /\ exit_status (@main_loop Sample.lib S (Some "sk-key") (Some "token")
                    [ "hello"; "EXIT" ] tt) = Some 0.
Proof.
  intros S.
  destruct (@exit_status_of_session Sample.lib S (Some "sk-key") (Some "")
              [ "hello" ] tt) as (Hmissing & _ & _).
  destruct (@exit_status_of_session Sample.lib S (Some "sk-key") (Some "token")
              [ "hello"; "EXIT" ] tt) as (_ & Hset & _).
  split.
  - apply Hmissing. discriminate.
  - destruct (Hset eq_refl) as [Hst _]. exact Hst.
Defined.

Lemma reset_starts_over_witness :
  let S := Sample.services (Ok []) (fun _ => Ok []) (Ok []) 0
             (Sample.text_reply "Hello!") in
  let s := @Sample.fresh S tt (repeat (mk_turn "user" None "hi") 4) in
  context (snd (@console Sample.lib S [ "RESET"; "hello" ] s)) =
    [ mk_turn "user" None "hello"; mk_turn "assistant" None "Hello!" ].
Proof.
  intros S s.
  destruct (@reset_starts_over Sample.lib S "RESET" "hello" s eq_refl eq_refl eq_refl)
    as [_ Hctx].
  exact Hctx.
Defined.

(** ** The find tool *)

Section FindTool.
Context `{PyLib} `{Services}.



End FindTool.

